(** * Booking rooms: the conflict engine of the bookings schema

    A shallow embedding of the SQL schema of the repository (tables
    [users], [classrooms], [bookings], the function
    [check_booking_conflicts], the trigger [prevent_booking_conflicts] and
    the row level security policies) and of the two booking forms of the
    front end, followed by the properties of the reservation
    specification that they decide.

    Conventions.  A [DATE] is the number of its day, a [TIME] the number
    of microseconds since midnight, both in [Z]; every statement
    quantified over [Z] covers the values of the SQL types.  A nullable
    column is an [option]; a comparison with [NULL] is not true, so that a
    [WHERE] clause drops the row.  The columns [created_at] and
    [updated_at] (wall clock) are left out, and so are the columns of
    [users] and [classrooms] that no constraint, trigger or policy of the
    schema reads. *)

From Stdlib Require Import ZArith List String Bool Lia FinFun.
Import ListNotations.
Open Scope string_scope.
Open Scope Z_scope.

(** ** Tables *)

Module Users.
Record row : Type := mk {
    id : Z;                      (* SERIAL PRIMARY KEY *)
    is_active : option bool;     (* BOOLEAN DEFAULT TRUE *)
    is_admin : option bool       (* BOOLEAN DEFAULT FALSE *)
  }.
End Users.

Module Classrooms.
Record row : Type := mk {
    id : Z;                      (* SERIAL PRIMARY KEY *)
    name : string;               (* VARCHAR(100) UNIQUE NOT NULL *)
    code : string;               (* VARCHAR(20) UNIQUE NOT NULL *)
    capacity : Z;                (* INTEGER NOT NULL *)
    is_active : option bool      (* BOOLEAN DEFAULT TRUE *)
  }.
End Classrooms.

Module Bookings.
Record row : Type := mk {
    id : Z;                          (* SERIAL PRIMARY KEY *)
    classroom_id : Z;                (* NOT NULL REFERENCES classrooms(id) ON DELETE CASCADE *)
    user_id : Z;                     (* NOT NULL REFERENCES users(id) ON DELETE CASCADE *)
    booking_date : Z;                (* DATE NOT NULL *)
    start_time : Z;                  (* TIME NOT NULL *)
    end_time : Z;                    (* TIME NOT NULL *)
    subject : option string;         (* VARCHAR(200) *)
    description : option string;     (* TEXT *)
    is_recurring : option bool;      (* BOOLEAN DEFAULT FALSE *)
    recurring_pattern : option string;   (* VARCHAR(50) *)
    recurring_end_date : option Z;   (* DATE *)
    status : option string           (* VARCHAR(20) DEFAULT 'confirmed' *)
  }.

Definition with_times (s e : Z) (r : row) : row :=
    mk (id r) (classroom_id r) (user_id r) (booking_date r) s e
       (subject r) (description r) (is_recurring r) (recurring_pattern r)
       (recurring_end_date r) (status r).

Definition with_status (st : option string) (r : row) : row :=
    mk (id r) (classroom_id r) (user_id r) (booking_date r)
       (start_time r) (end_time r)
       (subject r) (description r) (is_recurring r) (recurring_pattern r)
       (recurring_end_date r) st.
End Bookings.

Record database : Type := mkdb {
  users : list Users.row;
  classrooms : list Classrooms.row;
  bookings : list Bookings.row
}.

(** ** Outcome of a statement *)

Inductive sql_error : Type :=
| raise_exception (message : string)   (* RAISE EXCEPTION in a trigger *)
| unique_violation                     (* PRIMARY KEY *)
| foreign_key_violation                (* REFERENCES *)
| insufficient_privilege.              (* new row violates a policy *)

Inductive result (A : Type) : Type :=
| Ok (a : A)
| Raise (e : sql_error).
Arguments Ok {A} a.
Arguments Raise {A} e.

(** ** [check_booking_conflicts] *)

(** [status = 'confirmed']: not true on [NULL]. *)
Definition status_confirmed (st : option string) : bool :=
  match st with
  | Some s => String.eqb s "confirmed"
  | None => false
  end.

(** [(p_exclude_booking_id IS NULL OR id != p_exclude_booking_id)] *)
Definition not_excluded (p_exclude_booking_id : option Z) (id : Z) : bool :=
  match p_exclude_booking_id with
  | None => true
  | Some x => negb (id =? x)
  end.

(** The four clauses on the times of an existing row and of the
    candidate, in the order of the source. *)
Definition time_clauses (start_time end_time p_start_time p_end_time : Z) : bool :=
  (* New booking starts during existing booking *)
  ((start_time <=? p_start_time) && (end_time >? p_start_time)) ||
  (* New booking ends during existing booking *)
  ((start_time <? p_end_time) && (end_time >=? p_end_time)) ||
  (* New booking completely contains existing booking *)
  ((start_time >=? p_start_time) && (end_time <=? p_end_time)) ||
  (* Existing booking completely contains new booking *)
  ((start_time <=? p_start_time) && (end_time >=? p_end_time)).

(** The [WHERE] clause of the query, on one row of [bookings]. *)
Definition conflict_row
    (p_classroom_id p_booking_date p_start_time p_end_time : Z)
    (p_exclude_booking_id : option Z) (r : Bookings.row) : bool :=
  (Bookings.classroom_id r =? p_classroom_id)
  && (Bookings.booking_date r =? p_booking_date)
  && status_confirmed (Bookings.status r)
  && not_excluded p_exclude_booking_id (Bookings.id r)
  && time_clauses (Bookings.start_time r) (Bookings.end_time r)
                  p_start_time p_end_time.

(** [RETURN EXISTS (SELECT 1 FROM bookings WHERE ...)] *)
Definition check_booking_conflicts (tbl : list Bookings.row)
    (p_classroom_id p_booking_date p_start_time p_end_time : Z)
    (p_exclude_booking_id : option Z) : bool :=
  existsb (conflict_row p_classroom_id p_booking_date p_start_time p_end_time
                        p_exclude_booking_id) tbl.

(** ** The trigger [prevent_booking_conflicts] (BEFORE INSERT OR UPDATE,
    FOR EACH ROW) *)

Definition conflict_message : string :=
  "Booking conflicts with existing reservation".

Definition prevent_booking_conflicts (tbl : list Bookings.row)
    (NEW : Bookings.row) : result Bookings.row :=
  if check_booking_conflicts tbl
       (Bookings.classroom_id NEW) (Bookings.booking_date NEW)
       (Bookings.start_time NEW) (Bookings.end_time NEW)
       (Some (Bookings.id NEW))
  then Raise (raise_exception conflict_message)
  else Ok NEW.

(** ** The half-open rule, in the words of the specification *)

Definition overlaps (s1 e1 s2 e2 : Z) : Prop := s1 < e2 /\ s2 < e1.

(** ** Statements on [bookings]

    A statement either commits a new database or raises; a statement that
    raises leaves the database as it was.  The BEFORE ROW trigger fires
    first, on the row as it would be written; the primary key and the
    foreign keys are checked when the row is written. *)

Definition has_booking (tbl : list Bookings.row) (k : Z) : bool :=
  existsb (fun r => Bookings.id r =? k) tbl.

Definition has_classroom (tbl : list Classrooms.row) (k : Z) : bool :=
  existsb (fun r => Classrooms.id r =? k) tbl.

Definition has_user (tbl : list Users.row) (k : Z) : bool :=
  existsb (fun r => Users.id r =? k) tbl.

Definition find_booking (tbl : list Bookings.row) (k : Z) : option Bookings.row :=
  find (fun r => Bookings.id r =? k) tbl.

Definition find_classroom (tbl : list Classrooms.row) (k : Z) : option Classrooms.row :=
  find (fun r => Classrooms.id r =? k) tbl.

Definition set_bookings (db : database) (tbl : list Bookings.row) : database :=
  mkdb (users db) (classrooms db) tbl.

(** [INSERT INTO bookings VALUES (NEW)], the defaults already filled in. *)
Definition insert_booking (db : database) (NEW : Bookings.row) : result database :=
  match prevent_booking_conflicts (bookings db) NEW with
  | Raise e => Raise e
  | Ok NEW =>
      if has_booking (bookings db) (Bookings.id NEW) then Raise unique_violation
      else if has_classroom (classrooms db) (Bookings.classroom_id NEW)
              && has_user (users db) (Bookings.user_id NEW)
      then Ok (set_bookings db (bookings db ++ [NEW]))
      else Raise foreign_key_violation
  end.

Definition replace_booking (k : Z) (NEW : Bookings.row) (tbl : list Bookings.row)
    : list Bookings.row :=
  map (fun r => if Bookings.id r =? k then NEW else r) tbl.

(** [UPDATE bookings SET ... WHERE id = k]; [set] gives the new row from
    the old one.  No row with this id: nothing to do, no trigger fires.  A
    reference is checked again only when its column changes. *)
Definition update_booking (db : database) (k : Z)
    (set : Bookings.row -> Bookings.row) : result database :=
  match find_booking (bookings db) k with
  | None => Ok db
  | Some OLD =>
      match prevent_booking_conflicts (bookings db) (set OLD) with
      | Raise e => Raise e
      | Ok NEW =>
          if negb (Bookings.id NEW =? Bookings.id OLD)
             && has_booking (bookings db) (Bookings.id NEW)
          then Raise unique_violation
          else if ((Bookings.classroom_id NEW =? Bookings.classroom_id OLD)
                   || has_classroom (classrooms db) (Bookings.classroom_id NEW))
                  && ((Bookings.user_id NEW =? Bookings.user_id OLD)
                      || has_user (users db) (Bookings.user_id NEW))
          then Ok (set_bookings db (replace_booking k NEW (bookings db)))
          else Raise foreign_key_violation
      end
  end.

(** [DELETE FROM bookings WHERE id = k] *)
Definition delete_booking (db : database) (k : Z) : database :=
  set_bookings db (filter (fun r => negb (Bookings.id r =? k)) (bookings db)).

(** ** Statements on [classrooms] *)

(** [DELETE FROM classrooms WHERE id = c]: the bookings of the room go
    with it ([ON DELETE CASCADE]). *)
Definition delete_classroom (db : database) (c : Z) : database :=
  mkdb (users db)
       (filter (fun r => negb (Classrooms.id r =? c)) (classrooms db))
       (filter (fun r => negb (Bookings.classroom_id r =? c)) (bookings db)).

Definition set_active (a : option bool) (r : Classrooms.row) : Classrooms.row :=
  Classrooms.mk (Classrooms.id r) (Classrooms.name r) (Classrooms.code r)
                (Classrooms.capacity r) a.

(** [UPDATE classrooms SET is_active = FALSE WHERE id = c].  The only
    trigger on [classrooms] stamps [updated_at]; nothing refers to
    [is_active] from [bookings]. *)
Definition deactivate_classroom (db : database) (c : Z) : database :=
  mkdb (users db)
       (map (fun r => if Classrooms.id r =? c then set_active (Some false) r else r)
            (classrooms db))
       (bookings db).

(** ** A history of statements on [bookings] *)

Inductive statement : Type :=
| INSERT (NEW : Bookings.row)
| UPDATE (k : Z) (set : Bookings.row -> Bookings.row)
| DELETE (k : Z).

Definition execute (db : database) (st : statement) : result database :=
  match st with
  | INSERT NEW => insert_booking db NEW
  | UPDATE k set => update_booking db k set
  | DELETE k => Ok (delete_booking db k)
  end.

(** The database after a statement: the one it commits, or the one it
    found when it raises. *)
Definition after (db : database) (st : statement) : database :=
  match execute db st with
  | Ok db' => db'
  | Raise _ => db
  end.

Definition run (db : database) (sts : list statement) : database :=
  fold_left after sts db.

(** ** Invariants of the table *)

(** The reservations that count: [status = 'confirmed']. *)
Definition confirmed (r : Bookings.row) : Prop :=
  Bookings.status r = Some "confirmed".

(** Two distinct confirmed rows of one room never overlap: they are on
    different days, or their times do not overlap by the half-open rule. *)
Definition confirmed_disjoint (tbl : list Bookings.row) : Prop :=
  forall r1 r2, In r1 tbl -> In r2 tbl ->
    Bookings.id r1 <> Bookings.id r2 ->
    confirmed r1 -> confirmed r2 ->
    Bookings.classroom_id r1 = Bookings.classroom_id r2 ->
    Bookings.booking_date r1 = Bookings.booking_date r2 ->
    ~ overlaps (Bookings.start_time r1) (Bookings.end_time r1)
               (Bookings.start_time r2) (Bookings.end_time r2).

(** The primary key. *)
Definition primary_key (tbl : list Bookings.row) : Prop :=
  NoDup (map Bookings.id tbl).

(** The rows that make the trigger raise on [NEW]: another row of the same
    room and day, confirmed, that meets one of the four clauses. *)
Definition conflicting (tbl : list Bookings.row) (NEW : Bookings.row) : Prop :=
  exists r, In r tbl /\
    Bookings.id r <> Bookings.id NEW /\
    Bookings.classroom_id r = Bookings.classroom_id NEW /\
    Bookings.booking_date r = Bookings.booking_date NEW /\
    Bookings.status r = Some "confirmed" /\
    time_clauses (Bookings.start_time r) (Bookings.end_time r)
                 (Bookings.start_time NEW) (Bookings.end_time NEW) = true.

Definition table_ok (tbl : list Bookings.row) : Prop :=
  primary_key tbl /\ confirmed_disjoint tbl.

(** The rows other than row [k], and the confirmed rows. *)
Definition others (k : Z) (tbl : list Bookings.row) : list Bookings.row :=
  filter (fun r => negb (Bookings.id r =? k)) tbl.

Definition confirmed_rows (tbl : list Bookings.row) : list Bookings.row :=
  filter (fun r => status_confirmed (Bookings.status r)) tbl.

(** [b = TRUE]: not true on [NULL]. *)
Definition sql_true (b : option bool) : bool :=
  match b with
  | Some true => true
  | _ => false
  end.


(** [TIME 'h:m'] in microseconds. *)
Definition at_time (h m : Z) : Z := (h * 60 + m) * 60000000.

(** ** The booking forms of the front end *)

(** A datetime the forms send: the day and the time of day. *)
Definition datetime : Type := (Z * Z)%type.

Record booking_details : Type := mkdetails {   (* state of BookingModal *)
  classroomId : option Z;  (* [None]: nothing selected, the empty string *)
  date : option Z;         (* [None]: the empty string *)
  startHour : Z;           (* one of the options 08 .. 17, as parseInt reads it *)
  endHour : Z;
  teacher : string;
  event : string
}.

Record create_request : Type := mkcreate {     (* body of POST /bookings/ *)
  cr_classroom_id : Z;
  cr_start_datetime : datetime;
  cr_end_datetime : datetime;
  cr_subject : string;
  cr_description : string
}.

(** [handleBookingSubmit]: [None] when the form alerts and returns.  The
    two hours always hold one of the options. *)
Definition handleBookingSubmit (b : booking_details) : option create_request :=
  match classroomId b, date b with
  | Some room, Some day =>
      if String.eqb (teacher b) "" || String.eqb (event b) ""
      then None                                  (* 'Please fill in all fields.' *)
      else if startHour b >=? endHour b
      then None                                  (* 'End time must be after start time.' *)
      else Some (mkcreate room
                          (day, at_time (startHour b) 0)
                          (day, at_time (endHour b) 0)
                          (event b) (teacher b))
  | _, _ => None                                 (* 'Please fill in all fields.' *)
  end.

Record edit_form : Type := mkedit {            (* state of the edit form *)
  ef_subject : string;
  ef_classroom_id : Z;
  ef_date : Z;
  ef_startTime : Z;       (* input type=time, as a time of day *)
  ef_endTime : Z
}.

Record update_request : Type := mkupdate {     (* body of PUT /bookings/id/ *)
  ur_subject : string;
  ur_classroom_id : Z;
  ur_start_datetime : datetime;
  ur_end_datetime : datetime
}.

(** [handleSave]: the request is sent as the form stands. *)
Definition handleSave (f : edit_form) : update_request :=
  mkupdate (ef_subject f) (ef_classroom_id f)
           (ef_date f, ef_startTime f) (ef_date f, ef_endTime f).

(** Modelled from the spec: the candidate row of an update, which the
    update path of the backend (not among the sources) reconstructs from
    the request and the existing values of the row. *)
Definition write_request (q : update_request) (r : Bookings.row) : Bookings.row :=
  Bookings.mk (Bookings.id r) (ur_classroom_id q) (Bookings.user_id r)
    (fst (ur_start_datetime q)) (snd (ur_start_datetime q))
    (snd (ur_end_datetime q))
    (Some (ur_subject q)) (Bookings.description r) (Bookings.is_recurring r)
    (Bookings.recurring_pattern r) (Bookings.recurring_end_date r)
    (Bookings.status r).

(** ** The admission operations

    The backend that serves the requests of the front end is not among
    the sources; its operations are modelled from the specification, over
    the statements and the query of the schema above. *)

Inductive failure : Type :=
| NotFound
| Forbidden
| InvalidInterval
| RoomInactive
| Conflict (occurrence : Z * Z * Z) (conflicts : list Bookings.row)
| RecurrenceTooLong
| StorageFault (e : sql_error).

Inductive outcome (A : Type) : Type :=
| Done (a : A)
| Fails (f : failure).
Arguments Done {A} a.
Arguments Fails {A} f.

(** The reservations a candidate conflicts with. *)
Definition conflicts_of (tbl : list Bookings.row) (room day s e : Z)
    (exclude : option Z) : list Bookings.row :=
  filter (conflict_row room day s e exclude) tbl.

(** Modelled from the spec: [create] of the Admission Controller
    (backend, absent).  "Atomically: validate room is active, validate
    interval, run conflict check, and only if clear, persist with status
    confirmed."  [new_id] is the key the sequence of [bookings.id] hands
    out. *)
Definition create_reservation (db : database) (new_id owner room day s e : Z)
    (subject description : option string) : outcome (database * Bookings.row) :=
  match find_classroom (classrooms db) room with
  | None => Fails NotFound
  | Some c =>
      if negb (sql_true (Classrooms.is_active c)) then Fails RoomInactive
      else if e <=? s then Fails InvalidInterval
      else if check_booking_conflicts (bookings db) room day s e None
      then Fails (Conflict (day, s, e) (conflicts_of (bookings db) room day s e None))
      else
        let NEW := Bookings.mk new_id room owner day s e subject description
                               (Some false) None None (Some "confirmed") in
        match insert_booking db NEW with
        | Ok db' => Done (db', NEW)
        | Raise err => Fails (StorageFault err)
        end
  end.










(** ** Recurring reservations *)

Definition max_occurrences : Z := 52.

(** Modelled from the spec: the Recurrence Expander (absent from the
    sources, which only have the columns [is_recurring],
    [recurring_pattern] and [recurring_end_date]).  The first occurrence
    plus the repeats every [period] days up to and including the last one
    on or before the recurrence end date; a period that is not positive or
    an end date before the first day is malformed; more than the cap is
    [RecurrenceTooLong]. *)
Definition expand (day period until : Z) : outcome (list Z) :=
  if (period <=? 0) || (until <? day) then Fails InvalidInterval
  else
    let n := (until - day) / period + 1 in
    if n >? max_occurrences then Fails RecurrenceTooLong
    else Done (map (fun i => day + period * Z.of_nat i) (seq 0 (Z.to_nat n))).

Definition weekly : Z := 7.

(** Modelled from the spec: the batch admission of a series.  "Each
    candidate is submitted to Admission Controller's create path"; "all
    candidates checked against current Store state and each other's
    just-admitted state before any is persisted, and either all persist or
    none do."  The candidates are admitted in order on a working copy. *)
Fixpoint accept_all (db : database) (next_id owner room : Z) (days : list Z)
    (s e : Z) (subject description : option string)
    : outcome (database * list Bookings.row) :=
  match days with
  | [] => Done (db, [])
  | day :: rest =>
      match create_reservation db next_id owner room day s e subject description with
      | Fails f => Fails f
      | Done (db1, row) =>
          match accept_all db1 (next_id + 1) owner room rest s e subject description with
          | Fails f => Fails f
          | Done (db2, rows) => Done (db2, row :: rows)
          end
      end
  end.

(** The store after the call, and its outcome. *)
Definition create_series (db : database) (next_id owner room day s e : Z)
    (period until : Z) (subject description : option string)
    : database * outcome (list Bookings.row) :=
  match expand day period until with
  | Fails f => (db, Fails f)
  | Done days =>
      match accept_all db next_id owner room days s e subject description with
      | Fails f => (db, Fails f)
      | Done (db', rows) => (db', Done rows)
      end
  end.


(** ** Sample data

    The users and classrooms that the schema inserts (names without
    accents), and a few bookings
    of classroom 1 on one day. *)

Definition sample_users : list Users.row :=
  [ Users.mk 1 (Some true) (Some true);      (* admin *)
    Users.mk 2 (Some true) (Some false);     (* profesor1 *)
    Users.mk 3 (Some true) (Some false);     (* profesor2 *)
    Users.mk 4 (Some true) (Some false) ].   (* profesor3 *)

Definition sample_classrooms : list Classrooms.row :=
  [ Classrooms.mk 1 "Aula de Informatica 1" "INF1" 25 (Some true);
    Classrooms.mk 2 "Aula de Informatica 2" "INF2" 30 (Some true);
    Classrooms.mk 3 "Salon de Actos" "SALON" 100 (Some true);
    Classrooms.mk 4 "Laboratorio de Fisica" "FISICA" 20 (Some true);
    Classrooms.mk 5 "Aula de Matematicas" "MATE1" 35 (Some true) ].

Definition sample_booking (id user : Z) (day : Z) (s e : Z) (st : string)
    : Bookings.row :=
  Bookings.mk id 1 user day s e None None (Some false) None None (Some st).

Definition day0 : Z := 20000.

Definition nine_to_ten : Bookings.row :=
  sample_booking 1 2 day0 (at_time 9 0) (at_time 10 0) "confirmed".

Definition ten_to_eleven : Bookings.row :=
  sample_booking 2 3 day0 (at_time 10 0) (at_time 11 0) "confirmed".

Definition half_past_nine : Bookings.row :=
  sample_booking 3 4 day0 (at_time 9 30) (at_time 10 30) "confirmed".

Definition empty_db : database := mkdb sample_users sample_classrooms [].

Definition two_bookings : database :=
  mkdb sample_users sample_classrooms [nine_to_ten; ten_to_eleven].

Definition outcome_map {A B} (f : A -> B) (o : outcome A) : outcome B :=
  match o with
  | Done a => Done (f a)
  | Fails e => Fails e
  end.

(** An interval whose end is before its start. *)
Definition one_to_noon : Bookings.row :=
  sample_booking 3 4 day0 (at_time 13 0) (at_time 12 0) "confirmed".

(** A store with one booking, 9:00 to 10:00 a week after [day0]. *)
Definition second_week : Bookings.row :=
  sample_booking 1 2 (day0 + 7) (at_time 9 0) (at_time 10 0) "confirmed".

Definition second_week_db : database :=
  mkdb sample_users sample_classrooms [second_week].

(** ** More statements of the schema *)

(** [DELETE FROM users WHERE id = u]: the bookings of the user go with the
    row ([ON DELETE CASCADE] on [bookings.user_id]). *)
Definition delete_user (db : database) (u : Z) : database :=
  mkdb (filter (fun r => negb (Users.id r =? u)) (users db))
       (classrooms db)
       (filter (fun r => negb (Bookings.user_id r =? u)) (bookings db)).

(** [INSERT INTO classrooms VALUES (NEW)]: [id] is the primary key, [name]
    and [code] are UNIQUE. *)
Definition insert_classroom (db : database) (NEW : Classrooms.row) : result database :=
  if has_classroom (classrooms db) (Classrooms.id NEW)
     || existsb (fun r => String.eqb (Classrooms.name r) (Classrooms.name NEW))
                (classrooms db)
     || existsb (fun r => String.eqb (Classrooms.code r) (Classrooms.code NEW))
                (classrooms db)
  then Raise unique_violation
  else Ok (mkdb (users db) (classrooms db ++ [NEW]) (bookings db)).

Definition find_user (tbl : list Users.row) (k : Z) : option Users.row :=
  find (fun r => Users.id r =? k) tbl.

(** [UPDATE users SET ... WHERE id = k].  A new key must be free, and the
    old one must not be in use in [bookings] (its reference has no
    ON UPDATE action). *)
Definition update_user (db : database) (k : Z) (set : Users.row -> Users.row)
    : result database :=
  match find_user (users db) k with
  | None => Ok db
  | Some OLD =>
      let NEW := set OLD in
      if negb (Users.id NEW =? Users.id OLD) && has_user (users db) (Users.id NEW)
      then Raise unique_violation
      else if negb (Users.id NEW =? Users.id OLD)
              && existsb (fun b => Bookings.user_id b =? Users.id OLD) (bookings db)
      then Raise foreign_key_violation
      else Ok (mkdb (map (fun r => if Users.id r =? k then NEW else r) (users db))
                    (classrooms db) (bookings db))
  end.

(** A history of statements on the three tables. *)
Inductive db_statement : Type :=
| ON_BOOKINGS (st : statement)
| INSERT_CLASSROOM (NEW : Classrooms.row)
| DEACTIVATE_CLASSROOM (c : Z)
| DELETE_CLASSROOM (c : Z)
| UPDATE_USER (k : Z) (set : Users.row -> Users.row)
| DELETE_USER (u : Z).

Definition db_execute (db : database) (st : db_statement) : result database :=
  match st with
  | ON_BOOKINGS st => execute db st
  | INSERT_CLASSROOM NEW => insert_classroom db NEW
  | DEACTIVATE_CLASSROOM c => Ok (deactivate_classroom db c)
  | DELETE_CLASSROOM c => Ok (delete_classroom db c)
  | UPDATE_USER k set => update_user db k set
  | DELETE_USER u => Ok (delete_user db u)
  end.

Definition db_after (db : database) (st : db_statement) : database :=
  match db_execute db st with
  | Ok db' => db'
  | Raise _ => db
  end.

Definition db_run (db : database) (sts : list db_statement) : database :=
  fold_left db_after sts db.

(** Every booking refers to an existing classroom and an existing user. *)
Definition references_ok (db : database) : Prop :=
  forall r, In r (bookings db) ->
    has_classroom (classrooms db) (Bookings.classroom_id r) = true /\
    has_user (users db) (Bookings.user_id r) = true.

(** No two distinct confirmed rows of one room and day meet the four
    clauses, in either order. *)
Definition clause_free (tbl : list Bookings.row) : Prop :=
  forall r1 r2, In r1 tbl -> In r2 tbl ->
    Bookings.id r1 <> Bookings.id r2 ->
    confirmed r1 -> confirmed r2 ->
    Bookings.classroom_id r1 = Bookings.classroom_id r2 ->
    Bookings.booking_date r1 = Bookings.booking_date r2 ->
    time_clauses (Bookings.start_time r1) (Bookings.end_time r1)
                 (Bookings.start_time r2) (Bookings.end_time r2) = false.

(** An update that leaves the key, the references, the day and the times
    of the row alone. *)
Definition keeps_slot (set : Bookings.row -> Bookings.row) : Prop :=
  forall r,
    Bookings.id (set r) = Bookings.id r /\
    Bookings.classroom_id (set r) = Bookings.classroom_id r /\
    Bookings.user_id (set r) = Bookings.user_id r /\
    Bookings.booking_date (set r) = Bookings.booking_date r /\
    Bookings.start_time (set r) = Bookings.start_time r /\
    Bookings.end_time (set r) = Bookings.end_time r.

Definition with_subject (t : option string) (r : Bookings.row) : Bookings.row :=
  Bookings.mk (Bookings.id r) (Bookings.classroom_id r) (Bookings.user_id r)
    (Bookings.booking_date r) (Bookings.start_time r) (Bookings.end_time r)
    t (Bookings.description r) (Bookings.is_recurring r)
    (Bookings.recurring_pattern r) (Bookings.recurring_end_date r)
    (Bookings.status r).

(** ** Row level security

    Row level security is enabled on the three tables, with twelve
    policies.  Before a statement on a table runs, the expressions of the
    policies that apply to its command are added to it.  An expression
    that queries a table brings in the SELECT policies of that table in
    turn; a table that comes up again while its own policies are being
    added is an error, [infinite recursion detected in policy for
    relation], and the statement does not run. *)

Inductive relation : Type := rel_users | rel_classrooms | rel_bookings.

Definition relation_eqb (a b : relation) : bool :=
  match a, b with
  | rel_users, rel_users | rel_classrooms, rel_classrooms
  | rel_bookings, rel_bookings => true
  | _, _ => false
  end.

Inductive command : Type := for_select | for_insert | for_update | for_delete.

Definition command_eqb (a b : command) : bool :=
  match a, b with
  | for_select, for_select | for_insert, for_insert
  | for_update, for_update | for_delete, for_delete => true
  | _, _ => false
  end.

Inductive policy_expression : Type :=
| uid_is_id           (* auth.uid()::text = id::text *)
| uid_is_user_id      (* auth.uid()::text = user_id::text *)
| is_active_true      (* is_active = TRUE *)
| exists_admin_user.  (* EXISTS (SELECT 1 FROM users
                                 WHERE id::text = auth.uid()::text
                                   AND is_admin = TRUE) *)

(** The tables an expression queries. *)
Definition queried (e : policy_expression) : list relation :=
  match e with
  | exists_admin_user => [rel_users]
  | _ => []
  end.

Record policy : Type := mkpolicy {
  policy_name : string;
  policy_on : relation;
  policy_for : option command;        (* [None]: FOR ALL *)
  policy_expr : policy_expression
}.

Definition policies : list policy :=
  [ mkpolicy "Users can view their own profile" rel_users (Some for_select) uid_is_id;
    mkpolicy "Users can update their own profile" rel_users (Some for_update) uid_is_id;
    mkpolicy "Admins can view all users" rel_users (Some for_select) exists_admin_user;
    mkpolicy "Admins can update all users" rel_users (Some for_update) exists_admin_user;
    mkpolicy "Anyone can view active classrooms" rel_classrooms (Some for_select)
             is_active_true;
    mkpolicy "Admins can manage classrooms" rel_classrooms None exists_admin_user;
    mkpolicy "Users can view their own bookings" rel_bookings (Some for_select)
             uid_is_user_id;
    mkpolicy "Users can create their own bookings" rel_bookings (Some for_insert)
             uid_is_user_id;
    mkpolicy "Users can update their own bookings" rel_bookings (Some for_update)
             uid_is_user_id;
    mkpolicy "Users can delete their own bookings" rel_bookings (Some for_delete)
             uid_is_user_id;
    mkpolicy "Admins can view all bookings" rel_bookings (Some for_select)
             exists_admin_user;
    mkpolicy "Admins can manage all bookings" rel_bookings None exists_admin_user ].

(** The policies of a table that apply to one of the commands. *)
Definition applies (t : relation) (cmds : list command) (p : policy) : bool :=
  relation_eqb (policy_on p) t
  && match policy_for p with
     | None => true
     | Some c => existsb (command_eqb c) cmds
     end.

Inductive expansion : Type :=
| expanded                          (* the policies are added, the statement runs *)
| infinite_recursion (t : relation) (* ... detected in policy for relation t *)
| unfinished.                       (* [depth] was too small to tell *)

(** Adding the policies of [t]; [active] are the tables whose policies
    are being added. *)
Fixpoint fire_policies (ps : list policy) (depth : nat) (active : list relation)
    (t : relation) (cmds : list command) : expansion :=
  match depth with
  | O => unfinished
  | S depth =>
      if existsb (relation_eqb t) active then infinite_recursion t
      else
        fold_left
          (fun acc t' =>
             match acc with
             | expanded => fire_policies ps depth (t :: active) t' [for_select]
             | _ => acc
             end)
          (flat_map (fun p => queried (policy_expr p)) (filter (applies t cmds) ps))
          expanded
  end.

(** The commands whose policies a statement is subject to: an UPDATE or a
    DELETE with a WHERE clause reads the rows it changes. *)
Definition statement_commands (cmd : command) : list command :=
  match cmd with
  | for_select => [for_select]
  | for_insert => [for_insert]
  | for_update => [for_update; for_select]
  | for_delete => [for_delete; for_select]
  end.

(** The policies of the schema without those on [users] that query
    [users]. *)
Definition without_self_reference (ps : list policy) : list policy :=
  filter (fun p => negb (relation_eqb (policy_on p) rel_users
                         && existsb (relation_eqb rel_users) (queried (policy_expr p))))
         ps.

(** ** The booking modal and the calendar of the front end *)

(** [timeOptions]: the hours 08 to 17 offered for start and end. *)
Definition timeOptions : list Z := map (fun i => Z.of_nat i + 8) (seq 0 10).

(** A change of one field of the modal. *)
Inductive input_change : Type :=
| change_classroomId (v : option Z)
| change_date (v : option Z)
| change_startHour (h : Z)
| change_endHour (h : Z)
| change_teacher (v : string)
| change_event (v : string).

(** [handleInputChange]: the field is set; a new start hour also sets the
    end hour to the next hour, 17 at most. *)
Definition handleInputChange (prev : booking_details) (ch : input_change)
    : booking_details :=
  match ch with
  | change_classroomId v =>
      mkdetails v (date prev) (startHour prev) (endHour prev) (teacher prev) (event prev)
  | change_date v =>
      mkdetails (classroomId prev) v (startHour prev) (endHour prev)
                (teacher prev) (event prev)
  | change_startHour h =>
      mkdetails (classroomId prev) (date prev) h (Z.min (h + 1) 17)
                (teacher prev) (event prev)
  | change_endHour h =>
      mkdetails (classroomId prev) (date prev) (startHour prev) h
                (teacher prev) (event prev)
  | change_teacher v =>
      mkdetails (classroomId prev) (date prev) (startHour prev) (endHour prev)
                v (event prev)
  | change_event v =>
      mkdetails (classroomId prev) (date prev) (startHour prev) (endHour prev)
                (teacher prev) v
  end.

(** A booking as the calendar holds it after [loadData]. *)
Record calendar_booking : Type := mkcal {
  cb_id : Z;
  cb_classroom_id : Z;
  cb_user_id : Z;
  cb_start : datetime;        (* [start]: the day and the time of day *)
  cb_end : datetime;          (* [end] *)
  cb_teacher : string;
  cb_event : string
}.

(** A booking as the API returns it. *)
Record api_booking : Type := mkapi {
  ab_id : Z;
  ab_classroom_id : Z;
  ab_user_id : Z;
  ab_start_datetime : datetime;
  ab_end_datetime : datetime;
  ab_subject : option string;
  ab_description : option string
}.

(** [x || d] on an optional string: the default when [x] is undefined or
    empty. *)
Definition js_or (x : option string) (d : string) : string :=
  match x with
  | Some s => if String.eqb s "" then d else s
  | None => d
  end.

(** The mapping applied by [loadData] to each booking. *)
Definition loaded (b : api_booking) : calendar_booking :=
  mkcal (ab_id b) (ab_classroom_id b) (ab_user_id b)
        (ab_start_datetime b) (ab_end_datetime b)
        (js_or (ab_description b) "Teacher")
        (js_or (ab_subject b) "Booking").

(** [getHours] of a time of day. *)
Definition getHours (t : Z) : Z := t / 3600000000.

(** [timeSlots] of the day view: the hours 8 to 17. *)
Definition timeSlots : list Z := map (fun i => Z.of_nat i + 8) (seq 0 10).

(** The test of the day view on a booking, for the cell of a classroom and
    an hour on the current day. *)
Definition in_day_cell (room currentDate hour : Z) (b : calendar_booking) : bool :=
  (cb_classroom_id b =? room)
  && (fst (cb_start b) =? currentDate)
  && (getHours (snd (cb_start b)) <=? hour)
  && (getHours (snd (cb_end b)) >? hour).

(** The booking shown in the cell: [bookings.find(...)]. *)
Definition day_cell (bookings : list calendar_booking) (room currentDate hour : Z)
    : option calendar_booking :=
  find (in_day_cell room currentDate hour) bookings.

(** [getDay] of a day counted from 1 January 1970, a Thursday: 0 is
    Sunday. *)
Definition getDay (d : Z) : Z := (d + 4) mod 7.

(** The seven days of the week view: from the Sunday on or before the
    current day. *)
Definition week_days (currentDate : Z) : list Z :=
  let startOfWeek := currentDate - getDay currentDate in
  map (fun i => startOfWeek + Z.of_nat i) (seq 0 7).

(** The bookings of a cell of the week view. *)
Definition week_cell (bookings : list calendar_booking) (room day : Z)
    : list calendar_booking :=
  filter (fun b => (cb_classroom_id b =? room) && (fst (cb_start b) =? day)) bookings.

(** A cell of the month view. *)
Record month_cell : Type := mkcell {
  mc_day : Z;
  mc_isCurrentMonth : bool;
  mc_date : option (Z * Z * Z)       (* year, month, day; [None] is null *)
}.

(** [calendarDays] of the month view, from the weekday of the first day
    of the month, the number of days of the month and of the month
    before. *)
Definition calendarDays (year month firstDayOfWeek totalDays daysInPrevMonth : Z)
    : list month_cell :=
  let before :=
    map (fun j => mkcell (daysInPrevMonth - (firstDayOfWeek - Z.of_nat j) + 1) false None)
        (seq 0 (Z.to_nat firstDayOfWeek)) in
  let current :=
    map (fun j => mkcell (Z.of_nat j + 1) true (Some (year, month, Z.of_nat j + 1)))
        (seq 0 (Z.to_nat totalDays)) in
  let remainingCells := 42 - Z.of_nat (List.length (before ++ current)) in
  before ++ current
  ++ map (fun j => mkcell (Z.of_nat j + 1) false None)
         (seq 0 (Z.to_nat remainingCells)).

(** ** The API clients of the front end: tokens and headers *)

(** [localStorage]: the value stored under each key, if any. *)
Definition storage : Type := string -> option string.

Definition getItem (st : storage) (k : string) : option string := st k.

Definition setItem (st : storage) (k v : string) : storage :=
  fun k' => if String.eqb k' k then Some v else st k'.

Definition removeItem (st : storage) (k : string) : storage :=
  fun k' => if String.eqb k' k then None else st k'.

Definition ACCESS_TOKEN_KEY : string := "booking_access_token".
Definition REFRESH_TOKEN_KEY : string := "booking_refresh_token".

(** A JavaScript object with string values, as the list of its
    properties; [obj_set] is an assignment, [obj_spread] the spread of a
    second object over a first. *)
Definition object : Type := list (string * string).

Fixpoint obj_get (o : object) (k : string) : option string :=
  match o with
  | [] => None
  | (k', v) :: rest => if String.eqb k' k then Some v else obj_get rest k
  end.

Fixpoint obj_set (o : object) (k v : string) : object :=
  match o with
  | [] => [(k, v)]
  | (k', v') :: rest =>
      if String.eqb k' k then (k', v) :: rest else (k', v') :: obj_set rest k v
  end.

Definition obj_spread (o extra : object) : object :=
  fold_left (fun acc kv => obj_set acc (fst kv) (snd kv)) extra o.

(** A string in a condition: [null] and the empty string are false. *)
Definition truthy (x : option string) : bool :=
  match x with
  | Some s => negb (String.eqb s "")
  | None => false
  end.

Module ApiClient.
(** The class [ApiClient] of the application. *)

Definition getToken (st : storage) : option string := getItem st ACCESS_TOKEN_KEY.

Definition setToken (st : storage) (token : string) : storage :=
  setItem st ACCESS_TOKEN_KEY token.

Definition clearToken (st : storage) : storage := removeItem st ACCESS_TOKEN_KEY.

(** The headers [fetch] sends, given the headers of its options. *)
Definition headers (st : storage) (options_headers : object) : object :=
  let h := obj_spread [("Content-Type", "application/json")] options_headers in
  match getToken st with
  | Some token =>
      if truthy (Some token) then obj_set h "Authorization" ("Bearer " ++ token)
      else h
  | None => h
  end.

(** [login], once the server has answered with [access_token]. *)
Definition login (st : storage) (access_token : string) : storage :=
  setToken st access_token.

Definition logout (st : storage) : storage := clearToken st.

Definition isAuthenticated (st : storage) : bool := truthy (getToken st).

End ApiClient.

Module Client.
(** The helpers of [client.ts]. *)

Record AuthTokens : Type := mktokens {
  access_token : string;
  refresh_token : option string;
  token_type : string
}.

Definition getToken (st : storage) : option string := getItem st ACCESS_TOKEN_KEY.

Definition setTokens (st : storage) (tokens : AuthTokens) : storage :=
  let st1 := setItem st ACCESS_TOKEN_KEY (access_token tokens) in
  match refresh_token tokens with
  | Some r => if truthy (Some r) then setItem st1 REFRESH_TOKEN_KEY r else st1
  | None => st1
  end.

Definition clearTokens (st : storage) : storage :=
  removeItem (removeItem st ACCESS_TOKEN_KEY) REFRESH_TOKEN_KEY.

Definition getAuthHeaders (st : storage) : object :=
  match getToken st with
  | Some token =>
      if truthy (Some token) then [("Authorization", "Bearer " ++ token)] else []
  | None => []
  end.

(** The headers [apiFetch] sends. *)
Definition headers (st : storage) (options_headers : object) : object :=
  obj_spread (obj_spread [("Content-Type", "application/json")] (getAuthHeaders st))
             options_headers.

Definition isAuthenticated (st : storage) : bool := truthy (getToken st).

End Client.

(** ** Adding a user in the settings page *)

(** A JavaScript string as the list of its code units. *)
Definition js_string : Type := list N.

(** White space and line terminators, which [trim] removes. *)
Definition js_whitespace (c : N) : bool :=
  existsb (N.eqb c)
    [9; 10; 11; 12; 13; 32; 160; 5760; 8192; 8193; 8194; 8195; 8196; 8197;
     8198; 8199; 8200; 8201; 8202; 8232; 8233; 8239; 8287; 12288; 65279]%N.

Fixpoint trimStart (s : js_string) : js_string :=
  match s with
  | [] => []
  | c :: rest => if js_whitespace c then trimStart rest else s
  end.

Definition trim (s : js_string) : js_string :=
  rev (trimStart (rev (trimStart s))).

(** [s.split('@')[0]]: the text before the first ['@']. *)
Fixpoint before_at (s : js_string) : js_string :=
  match s with
  | [] => []
  | c :: rest => if N.eqb c 64 then [] else c :: before_at rest
  end.

Record register_request : Type := mkregister {
  rr_username : js_string;
  rr_email : js_string;
  rr_password : js_string;
  rr_full_name : option js_string
}.

Inductive add_user_outcome : Type :=
| not_sent (userError : string)
| registered (q : register_request).

Definition is_empty (s : js_string) : bool :=
  match s with
  | [] => true
  | _ => false
  end.

(** [addUser], up to the call of [api.register]. *)
Definition addUser (newUserEmail newUserPassword newUserName : js_string)
    : add_user_outcome :=
  if is_empty (trim newUserEmail) || is_empty (trim newUserPassword)
  then not_sent ""
  else if (List.length newUserPassword <? 6)%nat
  then not_sent "Password min 6 chars"
  else registered
         (mkregister (before_at newUserEmail) (trim newUserEmail)
                     (trim newUserPassword)
                     (if is_empty (trim newUserName) then None
                      else Some (trim newUserName))).


(** * Properties *)

(** ** Comparisons *)

Ltac order_cases :=
  rewrite ?Z.gtb_ltb, ?Z.geb_leb in *;
  repeat match goal with
         | |- context [ (?a <=? ?b) ] => destruct (Z.leb_spec a b)
         | |- context [ (?a <? ?b) ] => destruct (Z.ltb_spec a b)
         | H : context [ (?a <=? ?b) ] |- _ => destruct (Z.leb_spec a b)
         | H : context [ (?a <? ?b) ] |- _ => destruct (Z.ltb_spec a b)
         end;
  simpl in *.

Ltac case_if :=
  match goal with
  | |- context [ if ?b then _ else _ ] => destruct b
  end.

(** The half-open overlap implies the four clauses, whatever the order of
    the bounds. *)
Lemma overlaps_time_clauses s e ps pe :
  overlaps s e ps pe -> time_clauses s e ps pe = true.
Proof.
  unfold overlaps, time_clauses. intros [H1 H2].
  order_cases; try reflexivity; lia.
Qed.

(** On two non-empty intervals the four clauses are the half-open rule. *)
Lemma time_clauses_overlaps s e ps pe :
  s < e -> ps < pe ->
  time_clauses s e ps pe = true -> overlaps s e ps pe.
Proof.
  unfold overlaps, time_clauses. intros Hv Hp.
  order_cases; intros; try discriminate; lia.
Qed.

(** ** The query, row by row *)

Lemma status_confirmed_spec st :
  status_confirmed st = true <-> st = Some "confirmed".
Proof.
  destruct st as [s|]; simpl.
  - rewrite String.eqb_eq. split; [intros ->; reflexivity | intros [= ->]; reflexivity].
  - split; discriminate.
Qed.

Lemma not_excluded_spec x k :
  not_excluded x k = true <-> x <> Some k.
Proof.
  destruct x as [y|]; simpl.
  - rewrite negb_true_iff, Z.eqb_neq. split; [congruence | intros H E; apply H; now subst].
  - split; [discriminate | reflexivity].
Qed.

Lemma conflict_row_spec c d s e x r :
  conflict_row c d s e x r = true <->
  Bookings.classroom_id r = c /\ Bookings.booking_date r = d /\
  confirmed r /\ x <> Some (Bookings.id r) /\
  time_clauses (Bookings.start_time r) (Bookings.end_time r) s e = true.
Proof.
  unfold conflict_row, confirmed.
  rewrite !andb_true_iff, !Z.eqb_eq, status_confirmed_spec, not_excluded_spec.
  tauto.
Qed.

Lemma check_booking_conflicts_spec tbl c d s e x :
  check_booking_conflicts tbl c d s e x = true <->
  exists r, In r tbl /\ conflict_row c d s e x r = true.
Proof. unfold check_booking_conflicts. apply existsb_exists. Qed.

Lemma check_booking_conflicts_false tbl c d s e x :
  check_booking_conflicts tbl c d s e x = false <->
  forall r, In r tbl -> conflict_row c d s e x r = false.
Proof.
  unfold check_booking_conflicts. split.
  - intros H r Hr. destruct (conflict_row c d s e x r) eqn:E; [|reflexivity].
    rewrite <- H. symmetry. apply existsb_exists. now exists r.
  - intros H. destruct (existsb _ tbl) eqn:E; [|reflexivity].
    apply existsb_exists in E as (r & Hr & Hc). rewrite (H r Hr) in Hc. discriminate.
Qed.

Lemma prevent_booking_conflicts_cases tbl NEW :
  (prevent_booking_conflicts tbl NEW = Raise (raise_exception conflict_message) /\
   check_booking_conflicts tbl (Bookings.classroom_id NEW) (Bookings.booking_date NEW)
     (Bookings.start_time NEW) (Bookings.end_time NEW) (Some (Bookings.id NEW)) = true)
  \/
  (prevent_booking_conflicts tbl NEW = Ok NEW /\
   check_booking_conflicts tbl (Bookings.classroom_id NEW) (Bookings.booking_date NEW)
     (Bookings.start_time NEW) (Bookings.end_time NEW) (Some (Bookings.id NEW)) = false).
Proof.
  unfold prevent_booking_conflicts.
  destruct (check_booking_conflicts _ _ _ _ _ _); [left | right]; split; reflexivity.
Qed.

Lemma prevent_booking_conflicts_raise tbl NEW :
  prevent_booking_conflicts tbl NEW = Raise (raise_exception conflict_message) <->
  conflicting tbl NEW.
Proof.
  unfold conflicting.
  destruct (prevent_booking_conflicts_cases tbl NEW) as [[-> Hc] | [-> Hc]].
  - split; [intros _ | reflexivity].
    apply check_booking_conflicts_spec in Hc as (r & Hr & Hc).
    apply conflict_row_spec in Hc as (? & ? & ? & Hx & ?).
    exists r. repeat split; auto. congruence.
  - split; [discriminate | intros (r & Hr & Hid & Hroom & Hd & Hs & Ht)].
    exfalso. rewrite check_booking_conflicts_false in Hc.
    specialize (Hc r Hr).
    assert (conflict_row (Bookings.classroom_id NEW) (Bookings.booking_date NEW)
              (Bookings.start_time NEW) (Bookings.end_time NEW)
              (Some (Bookings.id NEW)) r = true) as E.
    { apply conflict_row_spec. repeat split; auto. congruence. }
    congruence.
Qed.

(** ** What a statement commits *)

Lemma has_booking_spec tbl k :
  has_booking tbl k = true <-> In k (map Bookings.id tbl).
Proof.
  unfold has_booking. rewrite existsb_exists, in_map_iff.
  split; intros (r & H1 & H2).
  - exists r. apply Z.eqb_eq in H2. auto.
  - exists r. rewrite Z.eqb_eq. auto.
Qed.

Lemma has_booking_false tbl k :
  has_booking tbl k = false <-> ~ In k (map Bookings.id tbl).
Proof.
  rewrite <- has_booking_spec. destruct (has_booking tbl k); split; congruence.
Qed.

Lemma find_booking_some tbl k r :
  find_booking tbl k = Some r -> In r tbl /\ Bookings.id r = k.
Proof.
  unfold find_booking. intros H. apply find_some in H as [H1 H2].
  apply Z.eqb_eq in H2. auto.
Qed.

Lemma find_booking_in tbl r :
  primary_key tbl -> In r tbl -> find_booking tbl (Bookings.id r) = Some r.
Proof.
  unfold primary_key, find_booking.
  induction tbl as [|a tbl IH]; simpl; intros Hpk Hin; [contradiction|].
  inversion Hpk as [|? ? Hna Hnd]; subst.
  destruct Hin as [-> | Hin].
  - now rewrite Z.eqb_refl.
  - destruct (Z.eqb_spec (Bookings.id a) (Bookings.id r)) as [E|E].
    + exfalso. apply Hna. rewrite E. now apply in_map.
    + auto.
Qed.

Lemma insert_booking_ok db NEW db' :
  insert_booking db NEW = Ok db' ->
  db' = set_bookings db (bookings db ++ [NEW]) /\
  check_booking_conflicts (bookings db) (Bookings.classroom_id NEW)
    (Bookings.booking_date NEW) (Bookings.start_time NEW) (Bookings.end_time NEW)
    (Some (Bookings.id NEW)) = false /\
  ~ In (Bookings.id NEW) (map Bookings.id (bookings db)).
Proof.
  unfold insert_booking.
  destruct (prevent_booking_conflicts_cases (bookings db) NEW) as [[-> Hc] | [-> Hc]];
    [discriminate|].
  destruct (has_booking (bookings db) (Bookings.id NEW)) eqn:Hk; [discriminate|].
  case_if; [|discriminate].
  intros [= <-]. repeat split; auto. now apply has_booking_false.
Qed.

Lemma update_booking_ok db k set db' OLD :
  find_booking (bookings db) k = Some OLD ->
  update_booking db k set = Ok db' ->
  db' = set_bookings db (replace_booking k (set OLD) (bookings db)) /\
  check_booking_conflicts (bookings db) (Bookings.classroom_id (set OLD))
    (Bookings.booking_date (set OLD)) (Bookings.start_time (set OLD))
    (Bookings.end_time (set OLD)) (Some (Bookings.id (set OLD))) = false /\
  (Bookings.id (set OLD) = k \/
   ~ In (Bookings.id (set OLD)) (map Bookings.id (bookings db))).
Proof.
  unfold update_booking. intros Hf. rewrite Hf.
  destruct (find_booking_some _ _ _ Hf) as [_ Hid].
  destruct (prevent_booking_conflicts_cases (bookings db) (set OLD))
    as [[-> Hc] | [-> Hc]]; [discriminate|].
  destruct (negb _ && has_booking _ _) eqn:Hk; [discriminate|].
  case_if; [|discriminate].
  intros [= <-]. repeat split; auto.
  apply andb_false_iff in Hk as [Hk | Hk].
  - left. apply negb_false_iff, Z.eqb_eq in Hk. congruence.
  - right. now apply has_booking_false.
Qed.

Lemma in_replace_booking k NEW tbl r :
  In r (replace_booking k NEW tbl) ->
  r = NEW \/ (In r tbl /\ Bookings.id r <> k).
Proof.
  unfold replace_booking. rewrite in_map_iff. intros (o & Ho & Hin).
  destruct (Z.eqb_spec (Bookings.id o) k); subst; auto.
Qed.

Lemma replace_booking_ids k NEW tbl :
  map Bookings.id (replace_booking k NEW tbl) =
  map (fun i => if i =? k then Bookings.id NEW else i) (map Bookings.id tbl).
Proof.
  unfold replace_booking. rewrite !map_map. apply map_ext.
  intros r. now destruct (Bookings.id r =? k).
Qed.

Lemma NoDup_rename (k n : Z) (ids : list Z) :
  NoDup ids -> n = k \/ ~ In n ids ->
  NoDup (map (fun i => if i =? k then n else i) ids).
Proof.
  intros Hnd [-> | Hn].
  - rewrite (map_ext_in _ (fun i => i)), map_id; auto.
    intros i _. destruct (Z.eqb_spec i k); congruence.
  - induction Hnd as [|a l Ha Hnd IH]; simpl; [constructor|].
    constructor.
    + rewrite in_map_iff. intros (b & Hb & Hin).
      destruct (Z.eqb_spec a k), (Z.eqb_spec b k); subst; simpl in *; try tauto.
    + apply IH. simpl in Hn. tauto.
Qed.

(** ** The invariant is kept by every statement *)

(** A row that passed the query does not overlap any other confirmed row
    of its room and day. *)
Lemma accepted_disjoint tbl NEW r :
  check_booking_conflicts tbl (Bookings.classroom_id NEW)
    (Bookings.booking_date NEW) (Bookings.start_time NEW) (Bookings.end_time NEW)
    (Some (Bookings.id NEW)) = false ->
  In r tbl -> Bookings.id r <> Bookings.id NEW -> confirmed r ->
  Bookings.classroom_id r = Bookings.classroom_id NEW ->
  Bookings.booking_date r = Bookings.booking_date NEW ->
  ~ overlaps (Bookings.start_time r) (Bookings.end_time r)
             (Bookings.start_time NEW) (Bookings.end_time NEW).
Proof.
  intros Hc Hr Hid Hs Hroom Hd Hov.
  rewrite check_booking_conflicts_false in Hc. specialize (Hc r Hr).
  apply overlaps_time_clauses in Hov.
  assert (conflict_row (Bookings.classroom_id NEW) (Bookings.booking_date NEW)
            (Bookings.start_time NEW) (Bookings.end_time NEW)
            (Some (Bookings.id NEW)) r = true) as E.
  { apply conflict_row_spec. repeat split; auto. congruence. }
  congruence.
Qed.

Lemma overlaps_sym s1 e1 s2 e2 : overlaps s1 e1 s2 e2 -> overlaps s2 e2 s1 e1.
Proof. unfold overlaps. tauto. Qed.

Lemma insert_booking_table_ok db NEW db' :
  table_ok (bookings db) -> insert_booking db NEW = Ok db' ->
  table_ok (bookings db').
Proof.
  intros [Hpk Hdj] H. apply insert_booking_ok in H as (-> & Hc & Hfresh).
  simpl. split.
  - unfold primary_key in *. rewrite map_app. simpl.
    apply NoDup_app; auto.
    + constructor; [intros []|constructor].
    + intros a Ha [<- | []]. contradiction.
  - intros r1 r2 H1 H2 Hid Hs1 Hs2 Hroom Hd.
    apply in_app_iff in H1. apply in_app_iff in H2. simpl in H1, H2.
    destruct H1 as [H1 | [<- | []]], H2 as [H2 | [<- | []]].
    + now apply Hdj.
    + now apply (accepted_disjoint (bookings db)).
    + intros Hov. apply overlaps_sym in Hov. revert Hov.
      apply (accepted_disjoint (bookings db)); auto.
    + congruence.
Qed.

Lemma update_booking_table_ok db k set db' :
  table_ok (bookings db) -> update_booking db k set = Ok db' ->
  table_ok (bookings db').
Proof.
  intros [Hpk Hdj].
  destruct (find_booking (bookings db) k) as [OLD|] eqn:Hf; intros H.
  2:{ unfold update_booking in H. rewrite Hf in H. injection H as <-. now split. }
  destruct (update_booking_ok _ _ _ _ _ Hf H) as (-> & Hc & Hid).
  simpl. split.
  - unfold primary_key in *. rewrite replace_booking_ids.
    now apply NoDup_rename.
  - intros r1 r2 H1 H2 Hne Hs1 Hs2 Hroom Hd.
    apply in_replace_booking in H1, H2.
    destruct H1 as [-> | [H1 K1]], H2 as [-> | [H2 K2]].
    + congruence.
    + intros Hov. apply overlaps_sym in Hov. revert Hov.
      apply (accepted_disjoint (bookings db)); auto.
    + now apply (accepted_disjoint (bookings db)).
    + now apply Hdj.
Qed.

Lemma primary_key_filter p tbl :
  primary_key tbl -> primary_key (filter p tbl).
Proof.
  unfold primary_key.
  induction tbl as [|a l IH]; simpl; intros Hpk; [constructor|].
  inversion Hpk as [|? ? Ha Hl]; subst.
  destruct (p a); simpl; auto.
  constructor; auto.
  rewrite in_map_iff. intros (r & Hr & Hin). apply filter_In in Hin as [Hin _].
  apply Ha. rewrite <- Hr. now apply in_map.
Qed.

Lemma delete_booking_table_ok db k :
  table_ok (bookings db) -> table_ok (bookings (delete_booking db k)).
Proof.
  intros [Hpk Hdj]. simpl. split.
  - now apply primary_key_filter.
  - intros r1 r2 H1 H2. apply filter_In in H1 as [H1 _], H2 as [H2 _].
    now apply Hdj.
Qed.

Lemma after_table_ok db st :
  table_ok (bookings db) -> table_ok (bookings (after db st)).
Proof.
  intros H. unfold after. destruct (execute db st) as [db'|e] eqn:E; [|assumption].
  destruct st as [NEW | k set | k]; simpl in E.
  - eapply insert_booking_table_ok; eauto.
  - eapply update_booking_table_ok; eauto.
  - injection E as <-. now apply delete_booking_table_ok.
Qed.

Lemma run_table_ok sts : forall db,
  table_ok (bookings db) -> table_ok (bookings (run db sts)).
Proof.
  unfold run. induction sts as [|st sts IH]; simpl; intros db H; [assumption|].
  apply IH. now apply after_table_ok.
Qed.

Lemma empty_table_ok : table_ok [].
Proof. split; [constructor | intros r1 r2 []]. Qed.

(** A write whose row overlaps another confirmed row of its room raises. *)
Lemma overlap_conflicting tbl NEW r :
  In r tbl -> Bookings.id r <> Bookings.id NEW -> confirmed r ->
  Bookings.classroom_id r = Bookings.classroom_id NEW ->
  Bookings.booking_date r = Bookings.booking_date NEW ->
  overlaps (Bookings.start_time r) (Bookings.end_time r)
           (Bookings.start_time NEW) (Bookings.end_time NEW) ->
  conflicting tbl NEW.
Proof.
  intros. exists r. repeat split; auto. now apply overlaps_time_clauses.
Qed.

Lemma insert_booking_raise db NEW :
  insert_booking db NEW = Raise (raise_exception conflict_message) <->
  conflicting (bookings db) NEW.
Proof.
  rewrite <- prevent_booking_conflicts_raise. unfold insert_booking.
  destruct (prevent_booking_conflicts_cases (bookings db) NEW) as [[-> _] | [-> _]].
  - tauto.
  - repeat case_if; split; discriminate.
Qed.

Lemma update_booking_raise db k set OLD :
  find_booking (bookings db) k = Some OLD ->
  (update_booking db k set = Raise (raise_exception conflict_message) <->
   conflicting (bookings db) (set OLD)).
Proof.
  intros Hf. rewrite <- prevent_booking_conflicts_raise.
  unfold update_booking. rewrite Hf.
  destruct (prevent_booking_conflicts_cases (bookings db) (set OLD))
    as [[-> _] | [-> _]].
  - tauto.
  - repeat case_if; split; discriminate.
Qed.

Lemma update_booking_absent db k set :
  find_booking (bookings db) k = None -> update_booking db k set = Ok db.
Proof. unfold update_booking. now intros ->. Qed.

(** ** No two confirmed bookings of a room overlap *)

(** C1.  Starting from an empty [bookings] table, after any history of
    inserts, updates and deletes (each committed or rejected in turn), two
    distinct confirmed rows of the same room never overlap; every statement
    keeps this; and an insert or update whose row overlaps another
    confirmed row of its room and day raises
    'Booking conflicts with existing reservation' and commits nothing. *)
Theorem confirmed_bookings_never_overlap :
  (forall us cs sts, confirmed_disjoint (bookings (run (mkdb us cs []) sts))) /\
  (forall db st, table_ok (bookings db) -> table_ok (bookings (after db st))) /\
  (forall db NEW r,
      In r (bookings db) -> Bookings.id r <> Bookings.id NEW -> confirmed r ->
      Bookings.classroom_id r = Bookings.classroom_id NEW ->
      Bookings.booking_date r = Bookings.booking_date NEW ->
      overlaps (Bookings.start_time r) (Bookings.end_time r)
               (Bookings.start_time NEW) (Bookings.end_time NEW) ->
      insert_booking db NEW = Raise (raise_exception conflict_message) /\
      after db (INSERT NEW) = db /\
      forall k set OLD,
        find_booking (bookings db) k = Some OLD -> set OLD = NEW ->
        update_booking db k set = Raise (raise_exception conflict_message) /\
        after db (UPDATE k set) = db).
Proof.
  split; [|split].
  - intros us cs sts. apply (run_table_ok sts (mkdb us cs [])). apply empty_table_ok.
  - intros db st. apply after_table_ok.
  - intros db NEW r Hin Hid Hs Hroom Hd Hov.
    pose proof (overlap_conflicting _ _ _ Hin Hid Hs Hroom Hd Hov) as Hc.
    assert (insert_booking db NEW = Raise (raise_exception conflict_message)) as Hi
      by now apply insert_booking_raise.
    split; [exact Hi|]. split.
    + unfold after. simpl. now rewrite Hi.
    + intros k set OLD Hf Hset.
      assert (update_booking db k set = Raise (raise_exception conflict_message)) as Hu.
      { apply (update_booking_raise _ _ _ _ Hf). now rewrite Hset. }
      split; [exact Hu|]. unfold after. simpl. now rewrite Hu.
Qed.

Lemma confirmed_bookings_never_overlap_witness :
  confirmed_disjoint
    (bookings (run empty_db
                 [INSERT nine_to_ten; INSERT ten_to_eleven; INSERT half_past_nine])) /\
  bookings (run empty_db
              [INSERT nine_to_ten; INSERT ten_to_eleven; INSERT half_past_nine])
    = [nine_to_ten; ten_to_eleven] /\
  insert_booking two_bookings half_past_nine
    = Raise (raise_exception conflict_message).
Proof.
  split; [|split].
  - apply (proj1 confirmed_bookings_never_overlap).
  - reflexivity.
  - apply (proj2 (proj2 confirmed_bookings_never_overlap)
             two_bookings half_past_nine nine_to_ten).
    + simpl. auto.
    + simpl. lia.
    + reflexivity.
    + reflexivity.
    + reflexivity.
    + unfold overlaps. simpl. vm_compute. split; reflexivity.
Defined.

(** ** The four clauses and the half-open rule *)

(** C2.  On two non-empty intervals [s1,e1) (the existing row) and
    [s2,e2) (the candidate) the four clauses of [check_booking_conflicts]
    hold exactly when s1 < e2 and s2 < e1; so does the query on a table
    made of one confirmed row of the room and day.  Back-to-back intervals
    do not conflict, in either order; an interval and one it contains do,
    in either order. *)
Theorem four_clauses_are_half_open_rule :
  forall s1 e1 s2 e2, s1 < e1 -> s2 < e2 ->
    (time_clauses s1 e1 s2 e2 = true <-> overlaps s1 e1 s2 e2) /\
    (forall r, confirmed r ->
       Bookings.start_time r = s1 -> Bookings.end_time r = e1 ->
       (check_booking_conflicts [r] (Bookings.classroom_id r)
          (Bookings.booking_date r) s2 e2 None = true
        <-> s1 < e2 /\ s2 < e1)) /\
    (e1 = s2 ->
       time_clauses s1 e1 s2 e2 = false /\ time_clauses s2 e2 s1 e1 = false) /\
    (s1 <= s2 -> e2 <= e1 ->
       time_clauses s1 e1 s2 e2 = true /\ time_clauses s2 e2 s1 e1 = true).
Proof.
  intros s1 e1 s2 e2 H1 H2.
  assert (time_clauses s1 e1 s2 e2 = true <-> overlaps s1 e1 s2 e2) as Heq.
  { split; [now apply time_clauses_overlaps | apply overlaps_time_clauses]. }
  split; [exact Heq|]. split; [|split].
  - intros r Hs <- <-. rewrite check_booking_conflicts_spec. split.
    + intros (r' & [<- | []] & Hc). apply conflict_row_spec in Hc.
      apply Heq. tauto.
    + intros Hov. exists r. split; [now left|].
      apply conflict_row_spec. repeat split; auto; try discriminate.
      now apply Heq.
  - intros ->. split.
    + destruct (time_clauses s1 s2 s2 e2) eqn:E; [|reflexivity].
      apply time_clauses_overlaps in E; auto. unfold overlaps in E. lia.
    + destruct (time_clauses s2 e2 s1 s2) eqn:E; [|reflexivity].
      apply time_clauses_overlaps in E; auto. unfold overlaps in E. lia.
  - intros Hs He. split; apply overlaps_time_clauses; unfold overlaps; lia.
Qed.

Lemma four_clauses_are_half_open_rule_witness :
  (* [9:00,10:00) and [9:30,10:30) *)
  (time_clauses (at_time 9 0) (at_time 10 0) (at_time 9 30) (at_time 10 30) = true
   <-> overlaps (at_time 9 0) (at_time 10 0) (at_time 9 30) (at_time 10 30)) /\
  (* [9:00,10:00) and [10:00,11:00) *)
  (time_clauses (at_time 9 0) (at_time 10 0) (at_time 10 0) (at_time 11 0) = false /\
   time_clauses (at_time 10 0) (at_time 11 0) (at_time 9 0) (at_time 10 0) = false) /\
  (* [9:00,11:00) and [9:30,10:30) *)
  (time_clauses (at_time 9 0) (at_time 11 0) (at_time 9 30) (at_time 10 30) = true /\
   time_clauses (at_time 9 30) (at_time 10 30) (at_time 9 0) (at_time 11 0) = true).
Proof.
  split; [|split].
  - apply (four_clauses_are_half_open_rule
             (at_time 9 0) (at_time 10 0) (at_time 9 30) (at_time 10 30));
      vm_compute; reflexivity.
  - apply (four_clauses_are_half_open_rule
             (at_time 9 0) (at_time 10 0) (at_time 10 0) (at_time 11 0));
      vm_compute; reflexivity.
  - apply (four_clauses_are_half_open_rule
             (at_time 9 0) (at_time 11 0) (at_time 9 30) (at_time 10 30));
      vm_compute; try reflexivity; discriminate.
Defined.

(** ** When the trigger raises *)

(** C10.  An insert, and an update of an existing row, raise
    'Booking conflicts with existing reservation' exactly when another row
    (a different id) of the same classroom_id and booking_date with status
    'confirmed' meets one of the four clauses against the times of the new
    row.  The status of the new row plays no part, so a cancelled row over
    a confirmed booking is rejected too; a table with no row on the day of
    the new row never rejects it. *)
Theorem write_rejected_iff_conflicting :
  (forall db NEW,
      insert_booking db NEW = Raise (raise_exception conflict_message)
      <-> conflicting (bookings db) NEW) /\
  (forall db k set OLD, find_booking (bookings db) k = Some OLD ->
      (update_booking db k set = Raise (raise_exception conflict_message)
       <-> conflicting (bookings db) (set OLD))) /\
  (forall tbl NEW st,
      conflicting tbl (Bookings.with_status st NEW) <-> conflicting tbl NEW) /\
  (forall tbl NEW,
      (forall r, In r tbl -> Bookings.booking_date r <> Bookings.booking_date NEW) ->
      ~ conflicting tbl NEW).
Proof.
  split; [|split; [|split]].
  - apply insert_booking_raise.
  - apply update_booking_raise.
  - intros tbl NEW st. unfold conflicting. simpl. tauto.
  - intros tbl NEW H (r & Hr & _ & _ & Hd & _). now apply (H r Hr).
Qed.

Lemma write_rejected_iff_conflicting_witness :
  (* a cancelled row over the 9:00 booking *)
  insert_booking two_bookings
    (sample_booking 3 4 day0 (at_time 9 30) (at_time 10 30) "cancelled")
    = Raise (raise_exception conflict_message) /\
  (* moving the 10:00 booking onto the 9:00 one *)
  (update_booking two_bookings 2 (Bookings.with_times (at_time 9 30) (at_time 10 30))
    = Raise (raise_exception conflict_message)
   <-> conflicting (bookings two_bookings)
         (Bookings.with_times (at_time 9 30) (at_time 10 30) ten_to_eleven)) /\
  (* the same times on the next day *)
  ~ conflicting (bookings two_bookings)
      (sample_booking 3 4 (day0 + 1) (at_time 9 30) (at_time 10 30) "confirmed").
Proof.
  split; [|split].
  - apply (proj1 write_rejected_iff_conflicting).
    exists nine_to_ten. vm_compute. repeat split; auto; discriminate.
  - apply (proj1 (proj2 write_rejected_iff_conflicting) two_bookings 2).
    reflexivity.
  - apply (proj2 (proj2 (proj2 write_rejected_iff_conflicting))).
    intros r [<- | [<- | []]]; vm_compute; discriminate.
Defined.

(** ** When a write commits *)

Lemma insert_booking_commits db NEW :
  check_booking_conflicts (bookings db) (Bookings.classroom_id NEW)
    (Bookings.booking_date NEW) (Bookings.start_time NEW) (Bookings.end_time NEW)
    (Some (Bookings.id NEW)) = false ->
  ~ In (Bookings.id NEW) (map Bookings.id (bookings db)) ->
  has_classroom (classrooms db) (Bookings.classroom_id NEW) = true ->
  has_user (users db) (Bookings.user_id NEW) = true ->
  insert_booking db NEW = Ok (set_bookings db (bookings db ++ [NEW])).
Proof.
  intros Hc Hid Hroom Huser. unfold insert_booking, prevent_booking_conflicts.
  rewrite Hc. apply has_booking_false in Hid. rewrite Hid, Hroom, Huser.
  reflexivity.
Qed.

(** An update that keeps the id and the references of the row. *)
Lemma update_booking_commits db k set OLD :
  find_booking (bookings db) k = Some OLD ->
  Bookings.id (set OLD) = Bookings.id OLD ->
  Bookings.classroom_id (set OLD) = Bookings.classroom_id OLD ->
  Bookings.user_id (set OLD) = Bookings.user_id OLD ->
  check_booking_conflicts (bookings db) (Bookings.classroom_id (set OLD))
    (Bookings.booking_date (set OLD)) (Bookings.start_time (set OLD))
    (Bookings.end_time (set OLD)) (Some (Bookings.id (set OLD))) = false ->
  update_booking db k set
  = Ok (set_bookings db (replace_booking k (set OLD) (bookings db))).
Proof.
  intros Hf Hid Hroom Huser Hc. unfold update_booking, prevent_booking_conflicts.
  rewrite Hf, Hc, Hid, Hroom, Huser, !Z.eqb_refl. reflexivity.
Qed.

(** ** Excluding a row, and rows that are not confirmed *)

Lemma existsb_filter {A} (p q : A -> bool) l :
  existsb p (filter q l) = existsb (fun a => q a && p a) l.
Proof.
  induction l as [|a l IH]; simpl; [reflexivity|].
  destruct (q a); simpl; now rewrite IH.
Qed.

Lemma existsb_pointwise {A} (p q : A -> bool) l :
  (forall a, p a = q a) -> existsb p l = existsb q l.
Proof.
  intros H. induction l as [|a l IH]; simpl; [reflexivity|].
  now rewrite H, IH.
Qed.

Lemma check_exclude_others tbl c d s e k :
  check_booking_conflicts tbl c d s e (Some k)
  = check_booking_conflicts (others k tbl) c d s e None.
Proof.
  unfold check_booking_conflicts, others. rewrite existsb_filter.
  apply existsb_pointwise. intros r. unfold conflict_row. simpl.
  destruct (negb (Bookings.id r =? k)); simpl;
    now rewrite ?andb_true_r, ?andb_false_r.
Qed.

Lemma check_confirmed_rows tbl c d s e x :
  check_booking_conflicts tbl c d s e x
  = check_booking_conflicts (confirmed_rows tbl) c d s e x.
Proof.
  unfold check_booking_conflicts, confirmed_rows. rewrite existsb_filter.
  apply existsb_pointwise. intros r. unfold conflict_row.
  destruct (status_confirmed (Bookings.status r)); simpl;
    now rewrite ?andb_true_r, ?andb_false_r.
Qed.

(** Narrowing the candidate never creates a conflict. *)
Lemma time_clauses_narrow os oe s e s' e' :
  s <= s' -> s' < e' -> e' <= e ->
  time_clauses os oe s' e' = true -> time_clauses os oe s e = true.
Proof.
  unfold time_clauses. intros H1 H2 H3.
  order_cases; intros; try reflexivity; try discriminate; lia.
Qed.

Lemma check_narrow tbl c d s e s' e' x :
  s <= s' -> s' < e' -> e' <= e ->
  check_booking_conflicts tbl c d s e x = false ->
  check_booking_conflicts tbl c d s' e' x = false.
Proof.
  intros H1 H2 H3. rewrite !check_booking_conflicts_false. intros H r Hr.
  specialize (H r Hr).
  destruct (conflict_row c d s' e' x r) eqn:E; [|reflexivity].
  apply conflict_row_spec in E as (? & ? & ? & ? & Ht).
  apply (time_clauses_narrow _ _ s e) in Ht; auto.
  rewrite <- H. symmetry. apply conflict_row_spec. auto.
Qed.

(** C5.  The query looks at confirmed rows only.  Hence, once the update
    that sets the status of a row to 'cancelled' has committed, an insert
    of a new row (fresh id, existing owner) with the same room, day and
    times commits. *)
Theorem cancelled_rows_never_block :
  (forall tbl c d s e x,
      check_booking_conflicts tbl c d s e x
      = check_booking_conflicts (confirmed_rows tbl) c d s e x) /\
  (forall db k r db' NEW,
      primary_key (bookings db) ->
      find_booking (bookings db) k = Some r ->
      update_booking db k (Bookings.with_status (Some "cancelled")) = Ok db' ->
      Bookings.classroom_id NEW = Bookings.classroom_id r ->
      Bookings.booking_date NEW = Bookings.booking_date r ->
      Bookings.start_time NEW = Bookings.start_time r ->
      Bookings.end_time NEW = Bookings.end_time r ->
      ~ In (Bookings.id NEW) (map Bookings.id (bookings db)) ->
      has_classroom (classrooms db) (Bookings.classroom_id r) = true ->
      has_user (users db) (Bookings.user_id NEW) = true ->
      insert_booking db' NEW = Ok (set_bookings db' (bookings db' ++ [NEW]))).
Proof.
  split; [apply check_confirmed_rows|].
  intros db k r db' NEW Hpk Hf Hu Hroom Hd Hs He Hfresh Hc Huser.
  destruct (find_booking_some _ _ _ Hf) as [Hin Hk].
  destruct (update_booking_ok _ _ _ _ _ Hf Hu) as (-> & Hchk & _).
  simpl in Hchk. rewrite check_booking_conflicts_false in Hchk.
  apply insert_booking_commits; simpl; try congruence.
  - apply check_booking_conflicts_false. intros o Ho.
    apply in_replace_booking in Ho as [-> | [Ho Hne]].
    + unfold conflict_row. simpl. now rewrite !andb_false_r.
    + specialize (Hchk o Ho).
      destruct (conflict_row _ _ _ _ (Some (Bookings.id NEW)) o) eqn:E;
        [|reflexivity].
      apply conflict_row_spec in E as (E1 & E2 & E3 & E4 & E5).
      rewrite <- Hchk. symmetry. apply conflict_row_spec.
      repeat split; try congruence.
  - rewrite replace_booking_ids. rewrite in_map_iff.
    intros (i & Hi & Hini). simpl in Hi.
    destruct (Z.eqb_spec i k); subst.
    + apply Hfresh. rewrite <- Hi. apply in_map_iff. now exists r.
    + now apply Hfresh.
Qed.

Lemma cancelled_rows_never_block_witness :
  (* cancel the 9:00 booking of two_bookings, then book 9:00-10:00 again *)
  insert_booking
    (mkdb sample_users sample_classrooms
       [sample_booking 1 2 day0 (at_time 9 0) (at_time 10 0) "cancelled";
        ten_to_eleven])
    (sample_booking 3 4 day0 (at_time 9 0) (at_time 10 0) "confirmed")
  = Ok (mkdb sample_users sample_classrooms
          [sample_booking 1 2 day0 (at_time 9 0) (at_time 10 0) "cancelled";
           ten_to_eleven;
           sample_booking 3 4 day0 (at_time 9 0) (at_time 10 0) "confirmed"]).
Proof.
  apply (proj2 cancelled_rows_never_block two_bookings 1 nine_to_ten).
  - unfold primary_key. simpl. repeat constructor; simpl; intuition discriminate.
  - reflexivity.
  - reflexivity.
  - reflexivity.
  - reflexivity.
  - reflexivity.
  - reflexivity.
  - simpl. intuition discriminate.
  - reflexivity.
  - reflexivity.
Defined.


(** ** The order of start and end *)

(** Nothing in the schema reads the order of [start_time] and [end_time]:
    on an empty table every row with existing references is inserted. *)
Lemma insert_into_empty_commits us cs NEW :
  has_classroom cs (Bookings.classroom_id NEW) = true ->
  has_user us (Bookings.user_id NEW) = true ->
  insert_booking (mkdb us cs []) NEW = Ok (mkdb us cs [NEW]).
Proof.
  intros Hc Hu. unfold insert_booking. simpl. now rewrite Hc, Hu.
Qed.

(** C7, on the code.  A row from 13:00 to 12:00 is inserted into the
    empty table, and an update to these times commits next to the bookings
    of the morning: the table has no check on the order of its times and
    the trigger only looks for conflicts.  Of the two forms of the front
    end the one that creates a booking refuses an end that is not after
    the start; the one that edits a booking sends it as it is. *)
Theorem end_before_start_is_persisted :
  Bookings.end_time one_to_noon < Bookings.start_time one_to_noon /\
  insert_booking empty_db one_to_noon
  = Ok (mkdb sample_users sample_classrooms [one_to_noon]) /\
  insert_booking two_bookings one_to_noon
  = Ok (mkdb sample_users sample_classrooms
          [nine_to_ten; ten_to_eleven; one_to_noon]) /\
  handleBookingSubmit (mkdetails (Some 1) (Some day0) 13 12 "Maria Garcia" "Algebra")
  = None /\
  handleSave (mkedit "Algebra" 1 day0 (at_time 13 0) (at_time 12 0))
  = mkupdate "Algebra" 1 (day0, at_time 13 0) (day0, at_time 12 0) /\
  update_booking two_bookings 1
    (write_request (handleSave (mkedit "Algebra" 1 day0 (at_time 13 0) (at_time 12 0))))
  = Ok (mkdb sample_users sample_classrooms
          [Bookings.mk 1 1 2 day0 (at_time 13 0) (at_time 12 0) (Some "Algebra")
             None (Some false) None None (Some "confirmed");
           ten_to_eleven]).
Proof. repeat split. Qed.

(** ** Deactivating a classroom *)

Lemma set_active_id a r : Classrooms.id (set_active a r) = Classrooms.id r.
Proof. reflexivity. Qed.

Lemma has_classroom_deactivate tbl c k :
  has_classroom
    (map (fun r => if Classrooms.id r =? c then set_active (Some false) r else r) tbl) k
  = has_classroom tbl k.
Proof.
  unfold has_classroom. induction tbl as [|a l IH]; simpl; [reflexivity|].
  rewrite IH. now destruct (Classrooms.id a =? c).
Qed.

Lemma find_classroom_deactivate tbl c k :
  find_classroom
    (map (fun r => if Classrooms.id r =? c then set_active (Some false) r else r) tbl) k
  = if k =? c then option_map (set_active (Some false)) (find_classroom tbl k)
    else find_classroom tbl k.
Proof.
  unfold find_classroom. induction tbl as [|a l IH]; simpl.
  - now destruct (k =? c).
  - destruct (Z.eqb_spec (Classrooms.id a) c) as [Ea|Ea]; simpl;
      destruct (Z.eqb_spec (Classrooms.id a) k) as [Ek|Ek]; try exact IH.
    + rewrite <- Ek, Ea, Z.eqb_refl. reflexivity.
    + rewrite <- Ek. destruct (Z.eqb_spec (Classrooms.id a) c);
        [contradiction|reflexivity].
Qed.

Lemma has_classroom_find tbl k :
  has_classroom tbl k = true -> exists r, find_classroom tbl k = Some r.
Proof.
  unfold has_classroom, find_classroom.
  induction tbl as [|a l IH]; simpl; [discriminate|].
  destruct (Classrooms.id a =? k); simpl; eauto.
Qed.

Lemma insert_booking_deactivate db c NEW :
  insert_booking (deactivate_classroom db c) NEW
  = match insert_booking db NEW with
    | Ok db' => Ok (deactivate_classroom db' c)
    | Raise e => Raise e
    end.
Proof.
  unfold insert_booking, deactivate_classroom. cbn [classrooms users bookings].
  destruct (prevent_booking_conflicts (bookings db) NEW); [|reflexivity].
  rewrite has_classroom_deactivate.
  repeat case_if; reflexivity.
Qed.

(** C8.  Deactivating a classroom changes nothing but the flag of its
    row: the bookings table and the users are as they were, and so is
    every other classroom.  Afterwards a create against the room fails with
    RoomInactive, and a create against any other room ends as it would
    have before. *)
Theorem deactivation_keeps_bookings :
  forall db c,
    bookings (deactivate_classroom db c) = bookings db /\
    users (deactivate_classroom db c) = users db /\
    (forall k, k <> c ->
       find_classroom (classrooms (deactivate_classroom db c)) k
       = find_classroom (classrooms db) k) /\
    find_classroom (classrooms (deactivate_classroom db c)) c
    = option_map (set_active (Some false)) (find_classroom (classrooms db) c) /\
    (forall new_id owner day s e subject description,
       has_classroom (classrooms db) c = true ->
       create_reservation (deactivate_classroom db c) new_id owner c day s e
                          subject description
       = Fails RoomInactive) /\
    (forall new_id owner room day s e subject description,
       room <> c ->
       create_reservation (deactivate_classroom db c) new_id owner room day s e
                          subject description
       = outcome_map (fun '(db', row) => (deactivate_classroom db' c, row))
           (create_reservation db new_id owner room day s e subject description)).
Proof.
  intros db c.
  split; [reflexivity|]. split; [reflexivity|]. split; [|split; [|split]].
  - intros k Hk. unfold deactivate_classroom. cbn [classrooms].
    rewrite find_classroom_deactivate.
    destruct (Z.eqb_spec k c); [contradiction|reflexivity].
  - unfold deactivate_classroom. cbn [classrooms].
    rewrite find_classroom_deactivate. now rewrite Z.eqb_refl.
  - intros new_id owner day s e subject description Hc.
    unfold create_reservation, deactivate_classroom. cbn [classrooms].
    rewrite find_classroom_deactivate, Z.eqb_refl.
    destruct (has_classroom_find _ _ Hc) as [r ->]. reflexivity.
  - intros new_id owner room day s e subject description Hne.
    unfold create_reservation.
    rewrite insert_booking_deactivate.
    unfold deactivate_classroom at 1 2 3. cbn [classrooms bookings].
    rewrite find_classroom_deactivate.
    destruct (Z.eqb_spec room c); [contradiction|].
    destruct (find_classroom (classrooms db) room); [|reflexivity].
    repeat case_if; try reflexivity.
    destruct (insert_booking db _); reflexivity.
Qed.

Lemma deactivation_keeps_bookings_witness :
  bookings (deactivate_classroom two_bookings 1) = [nine_to_ten; ten_to_eleven] /\
  create_reservation (deactivate_classroom two_bookings 1) 3 4 1 day0
    (at_time 12 0) (at_time 13 0) None None
  = Fails RoomInactive /\
  create_reservation (deactivate_classroom two_bookings 1) 3 4 2 day0
    (at_time 12 0) (at_time 13 0) None None
  = outcome_map (fun '(db', row) => (deactivate_classroom db' 1, row))
      (create_reservation two_bookings 3 4 2 day0
         (at_time 12 0) (at_time 13 0) None None).
Proof.
  destruct (deactivation_keeps_bookings two_bookings 1)
    as (Hb & _ & _ & _ & Hblocked & Hothers).
  split; [exact Hb|]. split.
  - apply Hblocked. reflexivity.
  - apply Hothers. discriminate.
Defined.

(** ** Admitting one candidate, then a series *)



Section Create.

Variables (db : database) (owner room : Z) (c : Classrooms.row).
Variables (s e : Z) (subject description : option string).

Hypothesis room_found : find_classroom (classrooms db) room = Some c.
Hypothesis room_active : Classrooms.is_active c = Some true.
Hypothesis interval_ok : s < e.
Hypothesis owner_found : has_user (users db) owner = true.



End Create.







(** The expansion starts on the first day, stays within the end date and
    within the cap. *)
Lemma expand_bounds day period until days :
  expand day period until = Done days ->
  hd_error days = Some day /\
  Forall (fun d => day <= d <= until) days /\
  Z.of_nat (List.length days) <= max_occurrences.
Proof.
  unfold expand. destruct (_ || _) eqn:Hbad; [discriminate|].
  apply orb_false_iff in Hbad as [Hp Hu].
  apply Z.leb_gt in Hp. apply Z.ltb_ge in Hu.
  destruct (Z.gtb_spec ((until - day) / period + 1) max_occurrences) as [Hn|Hn];
    [discriminate|].
  intros [= <-].
  assert (0 <= (until - day) / period) as Hq by (apply Z.div_pos; lia).
  split; [|split].
  - destruct (Z.to_nat ((until - day) / period + 1)) eqn:E; [lia|].
    simpl. f_equal. lia.
  - apply Forall_forall. intros d Hd. apply in_map_iff in Hd as (i & <- & Hi).
    apply in_seq in Hi.
    pose proof (Z.mul_div_le (until - day) period Hp). nia.
  - rewrite List.length_map, List.length_seq. lia.
Qed.






(** The series of the witness: the second week fails it, and names the
    booking in the way. *)
Example second_week_conflict :
  create_series second_week_db 10 3 1 day0 (at_time 9 30) (at_time 10 30)
    weekly (day0 + 14) None None
  = (second_week_db,
     Fails (Conflict (day0 + 7, at_time 9 30, at_time 10 30) [second_week])).
Proof. vm_compute. reflexivity. Qed.

(** * Further properties of the schema *)

(** ** The four clauses on any two intervals *)

Lemma time_clauses_sym s e ps pe :
  time_clauses s e ps pe = time_clauses ps pe s e.
Proof. unfold time_clauses. order_cases; try reflexivity; lia. Qed.

(** The test does not depend on which of the two rows is the existing one
    and which the candidate, whatever the order of their bounds; so two
    confirmed rows of one room and day are compatible or not whichever is
    written first. *)
Theorem time_clauses_symmetric :
  (forall s e ps pe, time_clauses s e ps pe = time_clauses ps pe s e) /\
  (forall a b,
      Bookings.id a <> Bookings.id b -> confirmed a -> confirmed b ->
      (prevent_booking_conflicts [a] b = Raise (raise_exception conflict_message)
       <-> prevent_booking_conflicts [b] a = Raise (raise_exception conflict_message))).
Proof.
  pose proof time_clauses_sym as Hsym.
  split; [exact Hsym|].
  intros a b Hid Ha Hb. rewrite !prevent_booking_conflicts_raise.
  unfold conflicting, confirmed in *.
  split; intros (r & [<- | []] & _ & Hroom & Hday & _ & Ht);
    [exists b | exists a]; (split; [now left|]);
    repeat split; auto; try congruence; now rewrite Hsym.
Qed.

Lemma time_clauses_symmetric_witness :
  (prevent_booking_conflicts [nine_to_ten] half_past_nine
     = Raise (raise_exception conflict_message)
   <-> prevent_booking_conflicts [half_past_nine] nine_to_ten
     = Raise (raise_exception conflict_message)).
Proof.
  apply (proj2 time_clauses_symmetric nine_to_ten half_past_nine).
  - simpl. lia.
  - reflexivity.
  - reflexivity.
Defined.

(** A candidate of zero length conflicts with a non-empty row exactly when
    its instant lies between the start and the end of the row, both ends
    included; and a row of zero length blocks a non-empty candidate in the
    same way. *)
Theorem zero_length_conflicts_on_closed_range :
  forall s e t, s < e ->
    (time_clauses s e t t = true <-> s <= t <= e) /\
    (time_clauses t t s e = true <-> s <= t <= e).
Proof.
  intros s e t H.
  assert (time_clauses s e t t = true <-> s <= t <= e) as H1.
  { unfold time_clauses. order_cases; split; intros; try lia; try reflexivity;
      try discriminate. }
  split; [exact H1|].
  now rewrite time_clauses_sym.
Qed.

Lemma zero_length_conflicts_on_closed_range_witness :
  (* an empty booking at 10:00 against the 9:00-10:00 booking *)
  (time_clauses (at_time 9 0) (at_time 10 0) (at_time 10 0) (at_time 10 0) = true
   <-> at_time 9 0 <= at_time 10 0 <= at_time 10 0) /\
  (time_clauses (at_time 10 0) (at_time 10 0) (at_time 9 0) (at_time 10 0) = true
   <-> at_time 9 0 <= at_time 10 0 <= at_time 10 0).
Proof.
  apply (zero_length_conflicts_on_closed_range
           (at_time 9 0) (at_time 10 0) (at_time 10 0)).
  vm_compute. reflexivity.
Defined.

(** ** Reading a row back *)

Lemma find_booking_none tbl k :
  ~ In k (map Bookings.id tbl) -> find_booking tbl k = None.
Proof.
  unfold find_booking. intros H.
  destruct (find _ tbl) as [r|] eqn:E; [|reflexivity].
  apply find_some in E as [Hin Hk]. apply Z.eqb_eq in Hk.
  exfalso. apply H. rewrite <- Hk. now apply in_map.
Qed.

Lemma find_booking_app tbl r k :
  find_booking (tbl ++ [r]) k
  = match find_booking tbl k with
    | Some o => Some o
    | None => if Bookings.id r =? k then Some r else None
    end.
Proof.
  unfold find_booking. induction tbl as [|a l IH]; simpl; [reflexivity|].
  destruct (Bookings.id a =? k); auto.
Qed.

Lemma find_booking_replace tbl k NEW j :
  Bookings.id NEW = k ->
  find_booking (replace_booking k NEW tbl) j
  = if j =? k then option_map (fun _ => NEW) (find_booking tbl k)
    else find_booking tbl j.
Proof.
  intros Hid. unfold find_booking, replace_booking.
  induction tbl as [|a l IH]; simpl.
  - now destruct (j =? k).
  - destruct (Z.eqb_spec (Bookings.id a) k) as [Ea|Ea].
    + rewrite Hid. destruct (Z.eqb_spec j k) as [->|Hj].
      * rewrite Z.eqb_refl. reflexivity.
      * destruct (Z.eqb_spec k j); [congruence|].
        destruct (Z.eqb_spec (Bookings.id a) j); [congruence|].
        rewrite IH. destruct (Z.eqb_spec j k); [contradiction|reflexivity].
    + destruct (Z.eqb_spec j k) as [->|Hj].
      * destruct (Z.eqb_spec (Bookings.id a) k); [contradiction|].
        rewrite IH, ?Z.eqb_refl. reflexivity.
      * destruct (Bookings.id a =? j); [reflexivity|].
        rewrite IH. destruct (Z.eqb_spec j k); [contradiction|reflexivity].
Qed.

Lemma find_booking_filter tbl k j :
  find_booking (filter (fun r => negb (Bookings.id r =? k)) tbl) j
  = if j =? k then None else find_booking tbl j.
Proof.
  unfold find_booking. induction tbl as [|a l IH]; simpl.
  - now destruct (j =? k).
  - destruct (Z.eqb_spec (Bookings.id a) k) as [Ea|Ea]; simpl.
    + rewrite IH. destruct (Z.eqb_spec j k) as [Ej|Ej]; [reflexivity|].
      destruct (Z.eqb_spec (Bookings.id a) j); [congruence|reflexivity].
    + destruct (Z.eqb_spec (Bookings.id a) j) as [Ej|Ej].
      * destruct (Z.eqb_spec j k); [congruence|reflexivity].
      * exact IH.
Qed.

(** What is written is what is read: after a committed insert the new key
    finds the new row, after a committed update that keeps the key the key
    finds the updated row, after a delete the key finds nothing; every
    other key finds what it found before. *)
Theorem written_row_is_read_back :
  (forall db NEW db', insert_booking db NEW = Ok db' ->
      find_booking (bookings db') (Bookings.id NEW) = Some NEW /\
      forall j, j <> Bookings.id NEW ->
        find_booking (bookings db') j = find_booking (bookings db) j) /\
  (forall db k set OLD db',
      find_booking (bookings db) k = Some OLD ->
      Bookings.id (set OLD) = k ->
      update_booking db k set = Ok db' ->
      find_booking (bookings db') k = Some (set OLD) /\
      forall j, j <> k ->
        find_booking (bookings db') j = find_booking (bookings db) j) /\
  (forall db k,
      find_booking (bookings (delete_booking db k)) k = None /\
      forall j, j <> k ->
        find_booking (bookings (delete_booking db k)) j
        = find_booking (bookings db) j).
Proof.
  split; [|split].
  - intros db NEW db' H. apply insert_booking_ok in H as (-> & _ & Hfresh).
    cbn [bookings set_bookings]. split.
    + rewrite find_booking_app, (find_booking_none _ _ Hfresh), Z.eqb_refl.
      reflexivity.
    + intros j Hj. rewrite find_booking_app.
      destruct (find_booking (bookings db) j); [reflexivity|].
      destruct (Z.eqb_spec (Bookings.id NEW) j); [congruence|reflexivity].
  - intros db k set OLD db' Hf Hid H.
    destruct (update_booking_ok _ _ _ _ _ Hf H) as (-> & _ & _).
    cbn [bookings set_bookings]. split.
    + rewrite (find_booking_replace _ _ _ _ Hid), Z.eqb_refl, Hf. reflexivity.
    + intros j Hj. rewrite (find_booking_replace _ _ _ _ Hid).
      destruct (Z.eqb_spec j k); [contradiction|reflexivity].
  - intros db k. cbn [bookings delete_booking set_bookings]. split.
    + rewrite find_booking_filter, Z.eqb_refl. reflexivity.
    + intros j Hj. rewrite find_booking_filter.
      destruct (Z.eqb_spec j k); [contradiction|reflexivity].
Qed.

Lemma written_row_is_read_back_witness :
  find_booking (bookings (mkdb sample_users sample_classrooms [nine_to_ten]))
               (Bookings.id nine_to_ten) = Some nine_to_ten /\
  find_booking
    (bookings (mkdb sample_users sample_classrooms
                 [sample_booking 1 2 day0 (at_time 9 15) (at_time 9 45) "confirmed";
                  ten_to_eleven])) 1
  = Some (Bookings.with_times (at_time 9 15) (at_time 9 45) nine_to_ten).
Proof.
  split.
  - apply (proj1 written_row_is_read_back empty_db nine_to_ten). reflexivity.
  - apply (proj1 (proj2 written_row_is_read_back) two_bookings 1
             (Bookings.with_times (at_time 9 15) (at_time 9 45)) nine_to_ten);
      reflexivity.
Defined.

(** ** Invariants of a history on the three tables *)

Lemma accepted_clause_free tbl NEW r :
  check_booking_conflicts tbl (Bookings.classroom_id NEW)
    (Bookings.booking_date NEW) (Bookings.start_time NEW) (Bookings.end_time NEW)
    (Some (Bookings.id NEW)) = false ->
  In r tbl -> Bookings.id r <> Bookings.id NEW -> confirmed r ->
  Bookings.classroom_id r = Bookings.classroom_id NEW ->
  Bookings.booking_date r = Bookings.booking_date NEW ->
  time_clauses (Bookings.start_time r) (Bookings.end_time r)
               (Bookings.start_time NEW) (Bookings.end_time NEW) = false.
Proof.
  intros Hc Hr Hid Hs Hroom Hd.
  rewrite check_booking_conflicts_false in Hc. specialize (Hc r Hr).
  destruct (time_clauses _ _ _ _) eqn:E; [|reflexivity].
  rewrite <- Hc. symmetry. apply conflict_row_spec. repeat split; auto. congruence.
Qed.

Lemma insert_booking_clause_free db NEW db' :
  clause_free (bookings db) -> insert_booking db NEW = Ok db' ->
  clause_free (bookings db').
Proof.
  intros Hcf H. apply insert_booking_ok in H as (-> & Hc & Hfresh).
  cbn [bookings set_bookings].
  intros r1 r2 H1 H2 Hid Hs1 Hs2 Hroom Hd.
  apply in_app_iff in H1. apply in_app_iff in H2. simpl in H1, H2.
  destruct H1 as [H1 | [<- | []]], H2 as [H2 | [<- | []]].
  - now apply Hcf.
  - now apply (accepted_clause_free (bookings db)).
  - rewrite time_clauses_sym. apply (accepted_clause_free (bookings db)); auto.
  - congruence.
Qed.

Lemma update_booking_clause_free db k set db' :
  clause_free (bookings db) -> update_booking db k set = Ok db' ->
  clause_free (bookings db').
Proof.
  intros Hcf.
  destruct (find_booking (bookings db) k) as [OLD|] eqn:Hf; intros H.
  2:{ rewrite update_booking_absent in H by exact Hf. now injection H as <-. }
  destruct (update_booking_ok _ _ _ _ _ Hf H) as (-> & Hc & _).
  cbn [bookings set_bookings].
  intros r1 r2 H1 H2 Hne Hs1 Hs2 Hroom Hd.
  apply in_replace_booking in H1, H2.
  destruct H1 as [-> | [H1 K1]], H2 as [-> | [H2 K2]].
  - congruence.
  - rewrite time_clauses_sym. apply (accepted_clause_free (bookings db)); auto.
  - now apply (accepted_clause_free (bookings db)).
  - now apply Hcf.
Qed.

Lemma clause_free_filter p tbl : clause_free tbl -> clause_free (filter p tbl).
Proof.
  intros H r1 r2 H1 H2. apply filter_In in H1 as [H1 _], H2 as [H2 _]. now apply H.
Qed.

Lemma confirmed_disjoint_filter p tbl :
  confirmed_disjoint tbl -> confirmed_disjoint (filter p tbl).
Proof.
  intros H r1 r2 H1 H2. apply filter_In in H1 as [H1 _], H2 as [H2 _]. now apply H.
Qed.

Lemma table_ok_filter p tbl : table_ok tbl -> table_ok (filter p tbl).
Proof.
  intros [H1 H2]. split; [now apply primary_key_filter|now apply confirmed_disjoint_filter].
Qed.

Ltac case_if_in H :=
  match type of H with
  | context [ if ?b then _ else _ ] => destruct b
  end.

(** What a statement on the other tables leaves of [bookings]. *)
Lemma db_execute_bookings db st db' :
  db_execute db st = Ok db' ->
  (exists b, st = ON_BOOKINGS b /\ execute db b = Ok db') \/
  bookings db' = bookings db \/
  exists p, bookings db' = filter p (bookings db).
Proof.
  destruct st as [b | NEW | c | c | k set | u]; simpl; intros H.
  - left. eauto.
  - right. left. unfold insert_classroom in H. case_if_in H; [discriminate|].
    now injection H as <-.
  - right. left. now injection H as <-.
  - right. right. injection H as <-. simpl. eauto.
  - right. left. unfold update_user in H.
    destruct (find_user (users db) k); [|now injection H as <-].
    repeat case_if_in H; try discriminate. now injection H as <-.
  - right. right. injection H as <-. simpl. eauto.
Qed.

Lemma execute_keeps db b db' :
  execute db b = Ok db' ->
  (table_ok (bookings db) -> table_ok (bookings db')) /\
  (clause_free (bookings db) -> clause_free (bookings db')).
Proof.
  intros E. destruct b as [NEW | k set | k]; simpl in E.
  - split; intros; [eapply insert_booking_table_ok | eapply insert_booking_clause_free];
      eauto.
  - split; intros; [eapply update_booking_table_ok | eapply update_booking_clause_free];
      eauto.
  - injection E as <-. split; intros.
    + now apply delete_booking_table_ok.
    + now apply clause_free_filter.
Qed.

Lemma db_after_keeps db st :
  (table_ok (bookings db) -> table_ok (bookings (db_after db st))) /\
  (clause_free (bookings db) -> clause_free (bookings (db_after db st))).
Proof.
  unfold db_after. destruct (db_execute db st) as [db'|e] eqn:E; [|tauto].
  apply db_execute_bookings in E as [(b & -> & E) | [E | [p E]]].
  - exact (execute_keeps _ _ _ E).
  - rewrite E. tauto.
  - rewrite E. split; intros; [now apply table_ok_filter|now apply clause_free_filter].
Qed.

Lemma db_run_keeps sts : forall db,
  table_ok (bookings db) -> clause_free (bookings db) ->
  table_ok (bookings (db_run db sts)) /\ clause_free (bookings (db_run db sts)).
Proof.
  unfold db_run. induction sts as [|st sts IH]; simpl; intros db H1 H2; [tauto|].
  apply IH; now apply db_after_keeps.
Qed.

(** After any history of statements on the three tables, starting with no
    bookings, the ids of [bookings] are distinct and no two distinct
    confirmed rows of one room and day meet the four clauses, so that in
    particular they do not overlap. *)
Theorem history_keeps_bookings_apart :
  forall us cs sts,
    let tbl := bookings (db_run (mkdb us cs []) sts) in
    primary_key tbl /\ clause_free tbl /\ confirmed_disjoint tbl.
Proof.
  intros us cs sts tbl.
  destruct (db_run_keeps sts (mkdb us cs [])) as [[Hpk Hdj] Hcf].
  - apply empty_table_ok.
  - intros r1 r2 [].
  - auto.
Qed.

(** ** References *)

Lemma has_classroom_spec tbl k :
  has_classroom tbl k = true <-> In k (map Classrooms.id tbl).
Proof.
  unfold has_classroom. rewrite existsb_exists, in_map_iff.
  split; intros (r & H1 & H2); exists r.
  - apply Z.eqb_eq in H2. auto.
  - rewrite Z.eqb_eq. auto.
Qed.

Lemma has_user_spec tbl k :
  has_user tbl k = true <-> In k (map Users.id tbl).
Proof.
  unfold has_user. rewrite existsb_exists, in_map_iff.
  split; intros (r & H1 & H2); exists r.
  - apply Z.eqb_eq in H2. auto.
  - rewrite Z.eqb_eq. auto.
Qed.

Lemma insert_booking_refs db NEW db' :
  insert_booking db NEW = Ok db' ->
  has_classroom (classrooms db) (Bookings.classroom_id NEW) = true /\
  has_user (users db) (Bookings.user_id NEW) = true.
Proof.
  unfold insert_booking.
  destruct (prevent_booking_conflicts_cases (bookings db) NEW) as [[-> _] | [-> _]];
    [discriminate|].
  case_if; [discriminate|].
  destruct (has_classroom _ _), (has_user _ _); simpl; try discriminate. auto.
Qed.

Lemma update_booking_refs db k set OLD db' :
  find_booking (bookings db) k = Some OLD ->
  update_booking db k set = Ok db' ->
  (Bookings.classroom_id (set OLD) = Bookings.classroom_id OLD \/
   has_classroom (classrooms db) (Bookings.classroom_id (set OLD)) = true) /\
  (Bookings.user_id (set OLD) = Bookings.user_id OLD \/
   has_user (users db) (Bookings.user_id (set OLD)) = true).
Proof.
  unfold update_booking. intros ->.
  destruct (prevent_booking_conflicts_cases (bookings db) (set OLD))
    as [[-> _] | [-> _]]; [discriminate|].
  case_if; [discriminate|].
  destruct (Z.eqb_spec (Bookings.classroom_id (set OLD)) (Bookings.classroom_id OLD)),
           (Z.eqb_spec (Bookings.user_id (set OLD)) (Bookings.user_id OLD)),
           (has_classroom _ _), (has_user _ _); simpl; try discriminate; auto.
Qed.

Lemma execute_references_ok db b db' :
  references_ok db -> execute db b = Ok db' -> references_ok db'.
Proof.
  intros Hr E. destruct b as [NEW | k set | k]; simpl in E.
  - pose proof (insert_booking_refs _ _ _ E) as Hn.
    apply insert_booking_ok in E as (-> & _ & _).
    intros r Hin. cbn [bookings classrooms users set_bookings] in *.
    apply in_app_iff in Hin as [Hin | [<- | []]]; auto.
  - destruct (find_booking (bookings db) k) as [OLD|] eqn:Hf.
    2:{ rewrite update_booking_absent in E by exact Hf. now injection E as <-. }
    pose proof (update_booking_refs _ _ _ _ _ Hf E) as [Hc Hu].
    destruct (update_booking_ok _ _ _ _ _ Hf E) as (-> & _ & _).
    destruct (find_booking_some _ _ _ Hf) as [Hin _].
    destruct (Hr OLD Hin) as [Hoc Hou].
    intros r Hr'. cbn [bookings classrooms users set_bookings] in *.
    apply in_replace_booking in Hr' as [-> | [Hr' _]]; auto.
    split.
    + destruct Hc as [-> | Hc]; auto.
    + destruct Hu as [-> | Hu]; auto.
  - injection E as <-. intros r Hin. cbn [bookings delete_booking set_bookings] in Hin.
    apply filter_In in Hin as [Hin _]. now apply Hr.
Qed.

Lemma db_execute_references_ok db st db' :
  references_ok db -> db_execute db st = Ok db' -> references_ok db'.
Proof.
  intros Hr E. destruct st as [b | NEW | c | c | k set | u]; simpl in E.
  - eapply execute_references_ok; eauto.
  - unfold insert_classroom in E. case_if_in E; [discriminate|]. injection E as <-.
    intros r Hin. cbn [bookings classrooms users] in *.
    destruct (Hr r Hin) as [Hc Hu]. split; [|exact Hu].
    apply has_classroom_spec. rewrite map_app, in_app_iff. left.
    now apply has_classroom_spec.
  - injection E as <-. intros r Hin. unfold deactivate_classroom in *.
    cbn [bookings classrooms users] in *. rewrite has_classroom_deactivate.
    now apply Hr.
  - injection E as <-. intros r Hin. unfold delete_classroom in *.
    cbn [bookings classrooms users] in *.
    apply filter_In in Hin as [Hin Hk]. destruct (Hr r Hin) as [Hc Hu].
    split; [|exact Hu].
    apply has_classroom_spec in Hc. apply in_map_iff in Hc as (cr & Hid & Hcr).
    apply has_classroom_spec, in_map_iff. exists cr. split; [exact Hid|].
    apply filter_In. split; [exact Hcr|]. now rewrite Hid.
  - unfold update_user in E.
    destruct (find_user (users db) k) as [OLD|] eqn:Hf; [|now injection E as <-].
    apply find_some in Hf as [_ Hk]. apply Z.eqb_eq in Hk.
    destruct (negb _ && has_user _ _); [discriminate|].
    destruct (negb (Users.id (set OLD) =? Users.id OLD)
              && existsb _ (bookings db)) eqn:Hfk; [discriminate|].
    injection E as <-. intros r Hin. cbn [bookings classrooms users] in *.
    destruct (Hr r Hin) as [Hc Hu]. split; [exact Hc|].
    apply has_user_spec in Hu. apply in_map_iff in Hu as (ur & Hid & Hur).
    apply has_user_spec.
    destruct (Z.eqb_spec (Users.id ur) k) as [Ek|Ek].
    + (* the user of the row is the one updated *)
      apply andb_false_iff in Hfk as [Hsame | Hunused].
      * apply negb_false_iff, Z.eqb_eq in Hsame.
        apply in_map_iff. exists (set OLD). split; [congruence|].
        apply in_map_iff. exists ur. split; [|exact Hur].
        destruct (Z.eqb_spec (Users.id ur) k); [reflexivity|contradiction].
      * exfalso.
        assert (existsb (fun b => Bookings.user_id b =? Users.id OLD) (bookings db) = true)
          as Hex.
        { apply existsb_exists. exists r. split; [exact Hin|].
          apply Z.eqb_eq. congruence. }
        congruence.
    + apply in_map_iff. exists ur. split; [exact Hid|].
      apply in_map_iff. exists ur. split; [|exact Hur].
      destruct (Z.eqb_spec (Users.id ur) k); [contradiction|reflexivity].
  - injection E as <-. intros r Hin. unfold delete_user in *.
    cbn [bookings classrooms users] in *.
    apply filter_In in Hin as [Hin Hk]. destruct (Hr r Hin) as [Hc Hu].
    split; [exact Hc|].
    apply has_user_spec in Hu. apply in_map_iff in Hu as (ur & Hid & Hur).
    apply has_user_spec, in_map_iff. exists ur. split; [exact Hid|].
    apply filter_In. split; [exact Hur|]. now rewrite Hid.
Qed.

Lemma db_run_references_ok sts : forall db,
  references_ok db -> references_ok (db_run db sts).
Proof.
  unfold db_run. induction sts as [|st sts IH]; simpl; intros db H; [assumption|].
  apply IH. unfold db_after.
  destruct (db_execute db st) as [db'|e] eqn:E; [|assumption].
  eapply db_execute_references_ok; eauto.
Qed.

(** Referential integrity.  After any history of statements on the three
    tables, starting with no bookings, every booking refers to a classroom
    and to a user that exist: inserts and updates are checked, and deleting
    a classroom or a user takes its bookings along. *)
Theorem bookings_never_dangle :
  forall us cs sts r,
    In r (bookings (db_run (mkdb us cs []) sts)) ->
    In (Bookings.classroom_id r)
       (map Classrooms.id (classrooms (db_run (mkdb us cs []) sts))) /\
    In (Bookings.user_id r)
       (map Users.id (users (db_run (mkdb us cs []) sts))).
Proof.
  intros us cs sts r Hin.
  assert (references_ok (db_run (mkdb us cs []) sts)) as H.
  { apply db_run_references_ok. intros x []. }
  destruct (H r Hin) as [Hc Hu].
  split; [now apply has_classroom_spec | now apply has_user_spec].
Qed.

Lemma bookings_never_dangle_witness :
  In (Bookings.classroom_id nine_to_ten)
     (map Classrooms.id
        (classrooms (db_run empty_db
           [ON_BOOKINGS (INSERT nine_to_ten); DELETE_CLASSROOM 2; DELETE_USER 3]))) /\
  In (Bookings.user_id nine_to_ten)
     (map Users.id
        (users (db_run empty_db
           [ON_BOOKINGS (INSERT nine_to_ten); DELETE_CLASSROOM 2; DELETE_USER 3]))).
Proof.
  apply (bookings_never_dangle sample_users sample_classrooms
           [ON_BOOKINGS (INSERT nine_to_ten); DELETE_CLASSROOM 2; DELETE_USER 3]
           nine_to_ten).
  simpl. auto.
Defined.

(** ** What can always be done to a confirmed booking, and what can no
    longer be done to a cancelled one *)

Lemma clause_free_check tbl r s e :
  clause_free tbl -> In r tbl -> confirmed r ->
  (forall o, In o tbl -> Bookings.id o <> Bookings.id r -> confirmed o ->
     Bookings.classroom_id o = Bookings.classroom_id r ->
     Bookings.booking_date o = Bookings.booking_date r ->
     time_clauses (Bookings.start_time o) (Bookings.end_time o)
                  (Bookings.start_time r) (Bookings.end_time r) = false ->
     time_clauses (Bookings.start_time o) (Bookings.end_time o) s e = false) ->
  check_booking_conflicts tbl (Bookings.classroom_id r) (Bookings.booking_date r)
    s e (Some (Bookings.id r)) = false.
Proof.
  intros Hcf Hin Hconf Hstep. apply check_booking_conflicts_false. intros o Ho.
  destruct (conflict_row _ _ _ _ _ o) eqn:E; [|reflexivity].
  apply conflict_row_spec in E as (Hroom & Hd & Hs & Hx & Ht).
  assert (Bookings.id o <> Bookings.id r) as Hne by congruence.
  rewrite (Hstep o Ho Hne Hs Hroom Hd) in Ht; [discriminate|].
  now apply Hcf.
Qed.

(** In a table reached by any history from no bookings, an update of a
    confirmed booking that keeps its key, references, day and times (a
    change of subject, description or status, so also its cancellation)
    always commits, and so does one that narrows its times to a non-empty
    interval. *)
Theorem confirmed_booking_stays_editable :
  forall us cs sts r,
    let db := db_run (mkdb us cs []) sts in
    In r (bookings db) -> confirmed r ->
    (forall set, keeps_slot set ->
       update_booking db (Bookings.id r) set
       = Ok (set_bookings db (replace_booking (Bookings.id r) (set r) (bookings db)))) /\
    (forall s e,
       Bookings.start_time r <= s -> s < e -> e <= Bookings.end_time r ->
       update_booking db (Bookings.id r) (Bookings.with_times s e)
       = Ok (set_bookings db
               (replace_booking (Bookings.id r) (Bookings.with_times s e r)
                                (bookings db)))).
Proof.
  intros us cs sts r db Hin Hconf.
  destruct (db_run_keeps sts (mkdb us cs [])) as [[Hpk _] Hcf];
    [apply empty_table_ok | intros r1 r2 [] |].
  fold db in Hpk, Hcf.
  pose proof (find_booking_in _ _ Hpk Hin) as Hf.
  split.
  - intros set Hk. destruct (Hk r) as (Hid & Hroom & Huser & Hd & Hs & He).
    apply update_booking_commits; auto.
    rewrite Hid, Hroom, Hd, Hs, He.
    apply clause_free_check; auto.
  - intros s e H1 H2 H3.
    apply update_booking_commits; auto. simpl.
    apply clause_free_check; auto.
    intros o _ _ _ _ _ Ht.
    destruct (time_clauses _ _ s e) eqn:E; [|reflexivity].
    rewrite <- Ht. symmetry. eapply time_clauses_narrow; eauto.
Qed.

Lemma confirmed_booking_stays_editable_witness :
  update_booking
    (db_run empty_db [ON_BOOKINGS (INSERT nine_to_ten);
                      ON_BOOKINGS (INSERT ten_to_eleven)])
    1 (Bookings.with_status (Some "cancelled"))
  = Ok (mkdb sample_users sample_classrooms
          [sample_booking 1 2 day0 (at_time 9 0) (at_time 10 0) "cancelled";
           ten_to_eleven]).
Proof.
  apply (proj1 (confirmed_booking_stays_editable sample_users sample_classrooms
                  [ON_BOOKINGS (INSERT nine_to_ten);
                   ON_BOOKINGS (INSERT ten_to_eleven)] nine_to_ten
                  (or_introl eq_refl) eq_refl)
           (Bookings.with_status (Some "cancelled"))).
  intros r. repeat split.
Defined.




(** ** Deleting a classroom or a user *)

Lemma has_classroom_deleted tbl c :
  has_classroom (filter (fun r => negb (Classrooms.id r =? c)) tbl) c = false.
Proof.
  destruct (has_classroom _ c) eqn:E; [|reflexivity].
  apply has_classroom_spec, in_map_iff in E as (r & Hid & Hin).
  apply filter_In in Hin as [_ Hk]. rewrite Hid, Z.eqb_refl in Hk. discriminate.
Qed.

Lemma has_user_deleted tbl u :
  has_user (filter (fun r => negb (Users.id r =? u)) tbl) u = false.
Proof.
  destruct (has_user _ u) eqn:E; [|reflexivity].
  apply has_user_spec, in_map_iff in E as (r & Hid & Hin).
  apply filter_In in Hin as [_ Hk]. rewrite Hid, Z.eqb_refl in Hk. discriminate.
Qed.

(** Deleting a classroom removes exactly the bookings of that room, and
    deleting a user exactly the bookings of that user; the other bookings
    stay.  Afterwards no insert for the deleted room or user commits, and
    no update can move a remaining booking to it. *)
Theorem delete_cascades_to_bookings :
  forall db x,
    (forall r, In r (bookings (delete_classroom db x))
               <-> In r (bookings db) /\ Bookings.classroom_id r <> x) /\
    (forall r, In r (bookings (delete_user db x))
               <-> In r (bookings db) /\ Bookings.user_id r <> x) /\
    (forall NEW db', Bookings.classroom_id NEW = x ->
       insert_booking (delete_classroom db x) NEW <> Ok db') /\
    (forall NEW db', Bookings.user_id NEW = x ->
       insert_booking (delete_user db x) NEW <> Ok db') /\
    (forall k set OLD db',
       find_booking (bookings (delete_classroom db x)) k = Some OLD ->
       Bookings.classroom_id (set OLD) = x ->
       update_booking (delete_classroom db x) k set <> Ok db') /\
    (forall k set OLD db',
       find_booking (bookings (delete_user db x)) k = Some OLD ->
       Bookings.user_id (set OLD) = x ->
       update_booking (delete_user db x) k set <> Ok db').
Proof.
  intros db x.
  assert (forall (f : Bookings.row -> Z) r,
            In r (filter (fun r => negb (f r =? x)) (bookings db))
            <-> In r (bookings db) /\ f r <> x) as Hfilter.
  { intros f r. rewrite filter_In, negb_true_iff, Z.eqb_neq. tauto. }
  split; [apply (Hfilter Bookings.classroom_id)|].
  split; [apply (Hfilter Bookings.user_id)|].
  split; [|split; [|split]].
  - intros NEW db' Hx H. apply insert_booking_refs in H as [Hc _].
    unfold delete_classroom in Hc. cbn [classrooms] in Hc.
    rewrite Hx, has_classroom_deleted in Hc. discriminate.
  - intros NEW db' Hx H. apply insert_booking_refs in H as [_ Hu].
    unfold delete_user in Hu. cbn [users] in Hu.
    rewrite Hx, has_user_deleted in Hu. discriminate.
  - intros k set OLD db' Hf Hx H.
    destruct (update_booking_refs _ _ _ _ _ Hf H) as [[Hsame | Hc] _].
    + apply find_booking_some in Hf as [Hin _].
      apply (Hfilter Bookings.classroom_id) in Hin as [_ Hne]. congruence.
    + unfold delete_classroom in Hc. cbn [classrooms] in Hc.
      rewrite Hx, has_classroom_deleted in Hc. discriminate.
  - intros k set OLD db' Hf Hx H.
    destruct (update_booking_refs _ _ _ _ _ Hf H) as [_ [Hsame | Hu]].
    + apply find_booking_some in Hf as [Hin _].
      apply (Hfilter Bookings.user_id) in Hin as [_ Hne]. congruence.
    + unfold delete_user in Hu. cbn [users] in Hu.
      rewrite Hx, has_user_deleted in Hu. discriminate.
Qed.

Lemma delete_cascades_to_bookings_witness :
  (* classroom 1 is deleted with its two bookings; a new one for it fails *)
  bookings (delete_classroom two_bookings 1) = [] /\
  insert_booking (delete_classroom two_bookings 1) half_past_nine
  <> Ok (delete_classroom two_bookings 1).
Proof.
  split; [reflexivity|].
  apply (proj1 (proj2 (proj2 (delete_cascades_to_bookings two_bookings 1)))).
  reflexivity.
Defined.

(** * Updates and cancellations *)

(** ** The row an update leaves out of the check *)

Lemma check_excluding_spec tbl c d s e k :
  check_booking_conflicts tbl c d s e (Some k) = true <->
  exists o, In o tbl /\
    Bookings.id o <> k /\
    Bookings.classroom_id o = c /\
    Bookings.booking_date o = d /\
    Bookings.status o = Some "confirmed" /\
    time_clauses (Bookings.start_time o) (Bookings.end_time o) s e = true.
Proof.
  rewrite check_booking_conflicts_spec.
  split; intros (o & Hin & H); exists o; (split; [exact Hin|]).
  - apply conflict_row_spec in H as (H1 & H2 & H3 & H4 & H5).
    split; [congruence|]. auto.
  - destruct H as (H1 & H2 & H3 & H4 & H5). apply conflict_row_spec.
    split; [exact H2|]. split; [exact H3|]. split; [exact H4|].
    split; [congruence | exact H5].
Qed.

Lemma check_excluding_false tbl c d s e k :
  check_booking_conflicts tbl c d s e (Some k) = false <->
  forall o, In o tbl -> Bookings.id o <> k -> confirmed o ->
    Bookings.classroom_id o = c -> Bookings.booking_date o = d ->
    time_clauses (Bookings.start_time o) (Bookings.end_time o) s e = false.
Proof.
  split.
  - intros H o Hin Hne Hconf Hroom Hd.
    destruct (time_clauses _ _ s e) eqn:E; [|reflexivity].
    rewrite <- H. symmetry. apply check_excluding_spec. exists o. auto 10.
  - intros H. destruct (check_booking_conflicts _ _ _ _ _ _) eqn:E; [|reflexivity].
    apply check_excluding_spec in E as (o & Hin & Hne & Hroom & Hd & Hconf & Ht).
    rewrite (H o Hin Hne Hconf Hroom Hd) in Ht. discriminate.
Qed.

(** A non-empty interval inside that of [r] meets the clauses only with
    rows that the interval of [r] overlaps. *)
Lemma time_clauses_inside os oe rs re s e :
  os < oe -> ~ overlaps os oe rs re ->
  rs <= s -> s < e -> e <= re ->
  time_clauses os oe s e = false.
Proof.
  intros Hv Hno H1 H2 H3.
  destruct (time_clauses os oe s e) eqn:E; [|reflexivity].
  exfalso. apply Hno. apply time_clauses_overlaps in E; auto.
  unfold overlaps in *. lia.
Qed.

Lemma reachable_invariants us cs sts :
  primary_key (bookings (db_run (mkdb us cs []) sts)) /\
  clause_free (bookings (db_run (mkdb us cs []) sts)).
Proof.
  destruct (db_run_keeps sts (mkdb us cs [])) as [[Hpk _] Hcf];
    [apply empty_table_ok | intros r1 r2 [] | auto].
Qed.

(** C4.  The check that an update of reservation r runs, with exclude id =
    the id of r, is true exactly when some row other than r, of the room
    and day asked for and confirmed, meets one of the four clauses with
    the candidate times: every such row is looked at, and r is not.  So an
    update of the times of r raises the conflict exactly when another
    confirmed row of its room and day meets the clauses with the new
    times, and commits, writing the new times, exactly when none does,
    whatever the interval of r was.  In particular a non-empty interval
    inside the one of r is accepted whenever the other confirmed rows of
    the room and day are non-empty and do not overlap r by the half-open
    rule, and this is so for every confirmed r in every table reached by a
    history of statements from no bookings. *)
Theorem update_excludes_own_row :
  (forall tbl c d s e k,
      (check_booking_conflicts tbl c d s e (Some k) = true <->
       exists o, In o tbl /\
         Bookings.id o <> k /\
         Bookings.classroom_id o = c /\
         Bookings.booking_date o = d /\
         Bookings.status o = Some "confirmed" /\
         time_clauses (Bookings.start_time o) (Bookings.end_time o) s e = true) /\
      check_booking_conflicts tbl c d s e (Some k)
      = check_booking_conflicts (others k tbl) c d s e None) /\
  (forall db r s e,
      primary_key (bookings db) -> In r (bookings db) ->
      (update_booking db (Bookings.id r) (Bookings.with_times s e)
       = Raise (raise_exception conflict_message)
       <-> exists o, In o (bookings db) /\
             Bookings.id o <> Bookings.id r /\
             Bookings.classroom_id o = Bookings.classroom_id r /\
             Bookings.booking_date o = Bookings.booking_date r /\
             Bookings.status o = Some "confirmed" /\
             time_clauses (Bookings.start_time o) (Bookings.end_time o) s e = true) /\
      (update_booking db (Bookings.id r) (Bookings.with_times s e)
       = Ok (set_bookings db
               (replace_booking (Bookings.id r) (Bookings.with_times s e r)
                                (bookings db)))
       <-> forall o, In o (bookings db) ->
             Bookings.id o <> Bookings.id r -> confirmed o ->
             Bookings.classroom_id o = Bookings.classroom_id r ->
             Bookings.booking_date o = Bookings.booking_date r ->
             time_clauses (Bookings.start_time o) (Bookings.end_time o) s e = false) /\
      (Bookings.start_time r <= s -> s < e -> e <= Bookings.end_time r ->
       (forall o, In o (bookings db) ->
          Bookings.id o <> Bookings.id r -> confirmed o ->
          Bookings.classroom_id o = Bookings.classroom_id r ->
          Bookings.booking_date o = Bookings.booking_date r ->
          Bookings.start_time o < Bookings.end_time o /\
          ~ overlaps (Bookings.start_time o) (Bookings.end_time o)
                     (Bookings.start_time r) (Bookings.end_time r)) ->
       update_booking db (Bookings.id r) (Bookings.with_times s e)
       = Ok (set_bookings db
               (replace_booking (Bookings.id r) (Bookings.with_times s e r)
                                (bookings db))))) /\
  (forall us cs sts r s e,
      let db := db_run (mkdb us cs []) sts in
      In r (bookings db) -> confirmed r ->
      Bookings.start_time r <= s -> s < e -> e <= Bookings.end_time r ->
      update_booking db (Bookings.id r) (Bookings.with_times s e)
      = Ok (set_bookings db
              (replace_booking (Bookings.id r) (Bookings.with_times s e r)
                               (bookings db)))).
Proof.
  assert (forall db r s e,
      primary_key (bookings db) -> In r (bookings db) ->
      (forall o, In o (bookings db) ->
         Bookings.id o <> Bookings.id r -> confirmed o ->
         Bookings.classroom_id o = Bookings.classroom_id r ->
         Bookings.booking_date o = Bookings.booking_date r ->
         time_clauses (Bookings.start_time o) (Bookings.end_time o) s e = false) ->
      update_booking db (Bookings.id r) (Bookings.with_times s e)
      = Ok (set_bookings db
              (replace_booking (Bookings.id r) (Bookings.with_times s e r)
                               (bookings db)))) as Hcommit.
  { intros db r s e Hpk Hin Hfree.
    apply update_booking_commits; auto using find_booking_in.
    simpl. now apply check_excluding_false. }
  split; [|split].
  - intros tbl c d s e k. split.
    + apply check_excluding_spec.
    + apply check_exclude_others.
  - intros db r s e Hpk Hin.
    pose proof (find_booking_in _ _ Hpk Hin) as Hf.
    split; [|split].
    + rewrite (update_booking_raise _ _ _ _ Hf). unfold conflicting. simpl.
      reflexivity.
    + split; [|now apply Hcommit].
      intros H. destruct (update_booking_ok _ _ _ _ _ Hf H) as (_ & Hc & _).
      simpl in Hc. now apply check_excluding_false.
    + intros H1 H2 H3 Hothers. apply Hcommit; auto.
      intros o Ho Hne Hconf Hroom Hd.
      destruct (Hothers o Ho Hne Hconf Hroom Hd) as [Hv Hno].
      eapply time_clauses_inside; eauto.
  - intros us cs sts r s e db Hin Hconf H1 H2 H3.
    destruct (reachable_invariants us cs sts) as [Hpk Hcf]. fold db in Hpk, Hcf.
    apply Hcommit; auto.
    intros o Ho Hne Hc Hroom Hd.
    destruct (time_clauses _ _ s e) eqn:E; [|reflexivity].
    rewrite <- (Hcf o r Ho Hin Hne Hc Hconf Hroom Hd). symmetry.
    eapply time_clauses_narrow; eauto.
Qed.

Lemma update_excludes_own_row_witness :
  (* the 9:00-10:00 booking next to the 10:00-11:00 one: narrowed to
     9:15-9:45 it is written; moved to 9:30-10:30 it is refused *)
  update_booking two_bookings 1 (Bookings.with_times (at_time 9 15) (at_time 9 45))
  = Ok (mkdb sample_users sample_classrooms
          [sample_booking 1 2 day0 (at_time 9 15) (at_time 9 45) "confirmed";
           ten_to_eleven]) /\
  update_booking two_bookings 1 (Bookings.with_times (at_time 9 30) (at_time 10 30))
  = Raise (raise_exception conflict_message).
Proof.
  assert (primary_key (bookings two_bookings)) as Hpk.
  { unfold primary_key. simpl. repeat constructor; simpl; intuition discriminate. }
  assert (In nine_to_ten (bookings two_bookings)) as Hin by (simpl; auto).
  split.
  - destruct (proj1 (proj2 update_excludes_own_row) two_bookings nine_to_ten
                (at_time 9 15) (at_time 9 45) Hpk Hin) as (_ & _ & Hinside).
    apply Hinside.
    + vm_compute. discriminate.
    + reflexivity.
    + vm_compute. discriminate.
    + intros o [<- | [<- | []]] Hne _ _ _.
      * exfalso. now apply Hne.
      * split; [reflexivity|]. unfold overlaps. intros [H _]. vm_compute in H.
        discriminate.
  - destruct (proj1 (proj2 update_excludes_own_row) two_bookings nine_to_ten
                (at_time 9 30) (at_time 10 30) Hpk Hin) as (Hraise & _).
    apply Hraise. exists ten_to_eleven. simpl.
    split; [auto|]. split; [discriminate|]. repeat split.
Defined.

(** ** Who may update or cancel a reservation *)









(** * The policies *)

(** As the policies are written, no statement of a session that is
    subject to them runs.  Every policy "Admins ..." queries [users]; the
    SELECT policies of [users] are then added to that query, among them
    "Admins can view all users", which queries [users] again: an infinite
    recursion in the policies of [users].  This is so for the four
    commands on [bookings] and on [classrooms] and for SELECT and UPDATE
    on [users], at every depth that lets the expansion get that far.  No
    policy is for INSERT or DELETE on [users].  Without the two policies
    on [users] that query [users], every expansion ends. *)
Theorem policies_recurse_on_users :
  (forall n cmd,
     fire_policies policies (3 + n) [] rel_bookings (statement_commands cmd)
     = infinite_recursion rel_users /\
     fire_policies policies (3 + n) [] rel_classrooms (statement_commands cmd)
     = infinite_recursion rel_users) /\
  (forall n,
     fire_policies policies (3 + n) [] rel_users (statement_commands for_select)
     = infinite_recursion rel_users /\
     fire_policies policies (3 + n) [] rel_users (statement_commands for_update)
     = infinite_recursion rel_users) /\
  filter (applies rel_users [for_insert]) policies = [] /\
  filter (applies rel_users [for_delete]) policies = [] /\
  (forall n t cmd,
     fire_policies (without_self_reference policies) (3 + n) [] t
                   (statement_commands cmd)
     = expanded).
Proof.
  split; [|split; [|split; [|split]]].
  - intros n cmd. destruct cmd; split; reflexivity.
  - intros n. split; reflexivity.
  - reflexivity.
  - reflexivity.
  - intros n t cmd. destruct t, cmd; reflexivity.
Qed.

(** * Properties of the front end *)

(** ** The booking modal *)

Lemma timeOptions_spec h : In h timeOptions <-> 8 <= h <= 17.
Proof.
  unfold timeOptions. rewrite in_map_iff. split.
  - intros (i & <- & Hi). apply in_seq in Hi. lia.
  - intros H. exists (Z.to_nat (h - 8)). split; [lia|]. apply in_seq. lia.
Qed.

Lemma at_time_lt h1 h2 : at_time h1 0 < at_time h2 0 <-> h1 < h2.
Proof. unfold at_time. lia. Qed.

Lemma handleBookingSubmit_some b q :
  handleBookingSubmit b = Some q ->
  exists room day,
    classroomId b = Some room /\ date b = Some day /\
    teacher b <> "" /\ event b <> "" /\ startHour b < endHour b /\
    q = mkcreate room (day, at_time (startHour b) 0) (day, at_time (endHour b) 0)
                 (event b) (teacher b).
Proof.
  unfold handleBookingSubmit.
  destruct (classroomId b) as [room|]; [|discriminate].
  destruct (date b) as [day|]; [|discriminate].
  destruct (String.eqb_spec (teacher b) ""); [discriminate|].
  destruct (String.eqb_spec (event b) ""); [discriminate|]. simpl.
  rewrite Z.geb_leb. destruct (Z.leb_spec (endHour b) (startHour b)); [discriminate|].
  intros [= <-]. exists room, day. repeat split; auto.
Qed.

(** Every request the create form sends has its start and end on the same
    day, the end strictly after the start, both on the hour, and a subject
    and a description that are not empty; with hours taken from the
    options it lies between 8:00 and 17:00. *)
Theorem create_form_sends_valid_intervals :
  forall b q, handleBookingSubmit b = Some q ->
    fst (cr_start_datetime q) = fst (cr_end_datetime q) /\
    snd (cr_start_datetime q) < snd (cr_end_datetime q) /\
    snd (cr_start_datetime q) = at_time (startHour b) 0 /\
    snd (cr_end_datetime q) = at_time (endHour b) 0 /\
    cr_subject q <> "" /\ cr_description q <> "" /\
    (In (startHour b) timeOptions -> In (endHour b) timeOptions ->
     at_time 8 0 <= snd (cr_start_datetime q) /\
     snd (cr_end_datetime q) <= at_time 17 0).
Proof.
  intros b q H.
  apply handleBookingSubmit_some in H
    as (room & day & _ & _ & Ht & He & Hlt & ->). simpl.
  repeat split; auto.
  - now apply at_time_lt.
  - apply timeOptions_spec in H. unfold at_time. lia.
  - apply timeOptions_spec in H0. unfold at_time. lia.
Qed.

Lemma create_form_sends_valid_intervals_witness :
  snd (cr_start_datetime
         (mkcreate 1 (day0, at_time 9 0) (day0, at_time 10 0) "Algebra" "Maria"))
  < snd (cr_end_datetime
           (mkcreate 1 (day0, at_time 9 0) (day0, at_time 10 0) "Algebra" "Maria")).
Proof.
  apply (create_form_sends_valid_intervals
           (mkdetails (Some 1) (Some day0) 9 10 "Maria" "Algebra")).
  reflexivity.
Defined.

(** Choosing a start hour among the options fills in an end hour that is
    again one of the options.  For a start before 17 a form that is
    otherwise filled in is then sent as it stands; for the start 17 it is
    refused, and stays refused whatever end hour is chosen afterwards. *)
Theorem start_hour_17_cannot_be_booked :
  forall prev h, In h timeOptions ->
    let b := handleInputChange prev (change_startHour h) in
    In (endHour b) timeOptions /\
    (h < 17 -> classroomId prev <> None -> date prev <> None ->
     teacher prev <> "" -> event prev <> "" ->
     exists q, handleBookingSubmit b = Some q) /\
    (h = 17 -> forall h', In h' timeOptions ->
     handleBookingSubmit (handleInputChange b (change_endHour h')) = None).
Proof.
  intros prev h Hh b. apply timeOptions_spec in Hh. split; [|split].
  - apply timeOptions_spec. simpl. lia.
  - intros Hlt Hroom Hday Ht He. unfold handleBookingSubmit, b. simpl.
    destruct (classroomId prev) as [room|]; [|contradiction].
    destruct (date prev) as [day|]; [|contradiction].
    destruct (String.eqb_spec (teacher prev) ""); [contradiction|].
    destruct (String.eqb_spec (event prev) ""); [contradiction|]. simpl.
    rewrite Z.geb_leb. destruct (Z.leb_spec (Z.min (h + 1) 17) h); [lia|].
    eauto.
  - intros -> h' Hh'. apply timeOptions_spec in Hh'.
    unfold handleBookingSubmit, b. simpl.
    destruct (classroomId prev); [|reflexivity].
    destruct (date prev); [|reflexivity].
    destruct (_ || _); [reflexivity|].
    rewrite Z.geb_leb. destruct (Z.leb_spec h' 17); [reflexivity|lia].
Qed.

Lemma start_hour_17_cannot_be_booked_witness :
  handleBookingSubmit
    (handleInputChange
       (handleInputChange (mkdetails (Some 1) (Some day0) 9 10 "Maria" "Algebra")
                          (change_startHour 17))
       (change_endHour 17))
  = None.
Proof.
  apply (start_hour_17_cannot_be_booked
           (mkdetails (Some 1) (Some day0) 9 10 "Maria" "Algebra") 17).
  - apply timeOptions_spec. lia.
  - reflexivity.
  - apply timeOptions_spec. lia.
Defined.

(** What the create form sent is what the calendar shows: a booking
    returned with the subject and the description of a request of the form
    is loaded with the event and the teacher that were typed in, never
    with the defaults 'Booking' and 'Teacher'. *)
Theorem form_texts_come_back :
  forall b q a, handleBookingSubmit b = Some q ->
    ab_subject a = Some (cr_subject q) ->
    ab_description a = Some (cr_description q) ->
    cb_event (loaded a) = event b /\ cb_teacher (loaded a) = teacher b.
Proof.
  intros b q a H Hs Hd.
  apply handleBookingSubmit_some in H
    as (room & day & _ & _ & Ht & He & _ & ->). simpl in *.
  unfold js_or. rewrite Hs, Hd.
  destruct (String.eqb_spec (event b) ""); [contradiction|].
  destruct (String.eqb_spec (teacher b) ""); [contradiction|]. auto.
Qed.

Lemma form_texts_come_back_witness :
  cb_event (loaded (mkapi 7 1 2 (day0, at_time 9 0) (day0, at_time 10 0)
                          (Some "Algebra") (Some "Maria"))) = "Algebra" /\
  cb_teacher (loaded (mkapi 7 1 2 (day0, at_time 9 0) (day0, at_time 10 0)
                            (Some "Algebra") (Some "Maria"))) = "Maria".
Proof.
  apply (form_texts_come_back
           (mkdetails (Some 1) (Some day0) 9 10 "Maria" "Algebra")
           (mkcreate 1 (day0, at_time 9 0) (day0, at_time 10 0) "Algebra" "Maria"));
    reflexivity.
Defined.

(** ** The calendar views *)

Lemma getHours_le t h : getHours t <= h <-> t < (h + 1) * 3600000000.
Proof.
  unfold getHours.
  pose proof (Z.div_mod t 3600000000 ltac:(lia)).
  pose proof (Z.mod_pos_bound t 3600000000 ltac:(lia)). lia.
Qed.

Lemma getHours_gt t h : getHours t > h <-> (h + 1) * 3600000000 <= t.
Proof.
  unfold getHours.
  pose proof (Z.div_mod t 3600000000 ltac:(lia)).
  pose proof (Z.mod_pos_bound t 3600000000 ltac:(lia)). lia.
Qed.

Lemma getHours_at_time h : getHours (at_time h 0) = h.
Proof.
  unfold getHours, at_time.
  replace ((h * 60 + 0) * 60000000) with (h * 3600000000) by lia.
  apply Z.div_mul. lia.
Qed.

Lemma in_day_cell_spec room day hour b :
  in_day_cell room day hour b = true <->
  cb_classroom_id b = room /\ fst (cb_start b) = day /\
  getHours (snd (cb_start b)) <= hour < getHours (snd (cb_end b)).
Proof.
  unfold in_day_cell.
  rewrite !andb_true_iff, !Z.eqb_eq, Z.leb_le, Z.gtb_ltb, Z.ltb_lt. tauto.
Qed.

(** The day view shows a booking in whole hours.  A booking made with the
    create form is shown in the cells of its room and day from its start
    hour up to, not including, its end hour.  A booking that starts and
    ends within one clock hour is shown in no cell, and a booking is never
    shown in the hour in which it ends. *)
Theorem day_view_shows_whole_hours :
  (forall b q a hour, handleBookingSubmit b = Some q ->
     ab_classroom_id a = cr_classroom_id q ->
     ab_start_datetime a = cr_start_datetime q ->
     ab_end_datetime a = cr_end_datetime q ->
     (in_day_cell (cr_classroom_id q) (fst (cr_start_datetime q)) hour (loaded a) = true
      <-> startHour b <= hour < endHour b)) /\
  (forall v room day hour,
     getHours (snd (cb_start v)) = getHours (snd (cb_end v)) ->
     in_day_cell room day hour v = false) /\
  (forall v room day,
     in_day_cell room day (getHours (snd (cb_end v))) v = false).
Proof.
  split; [|split].
  - intros b q a hour H Hroom Hs He.
    apply handleBookingSubmit_some in H as (room & day & _ & _ & _ & _ & _ & ->).
    simpl in *. rewrite in_day_cell_spec. simpl.
    rewrite Hroom, Hs, He. simpl. rewrite !getHours_at_time. tauto.
  - intros v room day hour H.
    destruct (in_day_cell room day hour v) eqn:E; [|reflexivity].
    apply in_day_cell_spec in E. lia.
  - intros v room day.
    destruct (in_day_cell _ _ _ v) eqn:E; [|reflexivity].
    apply in_day_cell_spec in E. lia.
Qed.

Lemma day_view_shows_whole_hours_witness :
  (* 9:00 to 11:00 from the form, looked up at 10; 9:15 to 9:45 at 9 *)
  (in_day_cell 1 day0 10
     (loaded (mkapi 7 1 2 (day0, at_time 9 0) (day0, at_time 11 0)
                    (Some "Algebra") (Some "Maria"))) = true
   <-> 9 <= 10 < 11) /\
  in_day_cell 1 day0 9
    (mkcal 8 1 2 (day0, at_time 9 15) (day0, at_time 9 45) "Maria" "Algebra") = false.
Proof.
  split.
  - apply (proj1 day_view_shows_whole_hours
             (mkdetails (Some 1) (Some day0) 9 11 "Maria" "Algebra")
             (mkcreate 1 (day0, at_time 9 0) (day0, at_time 11 0) "Algebra" "Maria")
             (mkapi 7 1 2 (day0, at_time 9 0) (day0, at_time 11 0)
                    (Some "Algebra") (Some "Maria")) 10);
      reflexivity.
  - apply (proj1 (proj2 day_view_shows_whole_hours)). reflexivity.
Defined.

Lemma find_first {A} (f : A -> bool) l v :
  find f l = Some v ->
  exists l1 l2, l = (l1 ++ v :: l2)%list /\ f v = true /\
                forall x, In x l1 -> f x = false.
Proof.
  induction l as [|a l IH]; simpl; [discriminate|].
  destruct (f a) eqn:E.
  - intros [= <-]. exists [], l. simpl. repeat split; auto. intros x [].
  - intros H. destruct (IH H) as (l1 & l2 & -> & Hv & Hbefore).
    exists (a :: l1), l2. simpl. repeat split; auto.
    intros x [<- | Hx]; auto.
Qed.

(** Two bookings that the day view would both show in one cell overlap in
    time: bookings of a room and day that do not overlap, as the trigger
    keeps the confirmed ones, never compete for a cell.  When they do, the
    cell shows the booking that comes first in the list among those that
    fit: no booking before it in the list fits. *)
Theorem day_cell_candidates_overlap :
  forall bookings room day hour v1 v2,
    In v1 bookings -> In v2 bookings ->
    in_day_cell room day hour v1 = true ->
    in_day_cell room day hour v2 = true ->
    overlaps (snd (cb_start v1)) (snd (cb_end v1))
             (snd (cb_start v2)) (snd (cb_end v2)) /\
    exists before v rest,
      bookings = (before ++ v :: rest)%list /\
      day_cell bookings room day hour = Some v /\
      in_day_cell room day hour v = true /\
      (forall x, In x before -> in_day_cell room day hour x = false).
Proof.
  intros bookings room day hour v1 v2 H1 H2 E1 E2. split.
  - apply in_day_cell_spec in E1 as (_ & _ & [L1 U1]).
    apply in_day_cell_spec in E2 as (_ & _ & [L2 U2]).
    apply getHours_le in L1, L2.
    apply Z.lt_gt, getHours_gt in U1. apply Z.lt_gt, getHours_gt in U2.
    unfold overlaps. lia.
  - unfold day_cell.
    destruct (find (in_day_cell room day hour) bookings) as [v|] eqn:E.
    + destruct (find_first _ _ _ E) as (l1 & l2 & Hl & Hv & Hbefore).
      exists l1, v, l2. auto.
    + rewrite (find_none _ _ E v1 H1) in E1. discriminate.
Qed.

Lemma day_cell_candidates_overlap_witness :
  (* two bookings that overlap at 9; the cell at 10 shows the second one *)
  overlaps (at_time 9 0) (at_time 10 0) (at_time 9 30) (at_time 10 30) /\
  exists before v rest,
    [mkcal 1 1 2 (day0, at_time 9 0) (day0, at_time 10 0) "Maria" "Algebra";
     mkcal 3 1 4 (day0, at_time 9 30) (day0, at_time 11 30) "Ana" "Fisica";
     mkcal 4 1 3 (day0, at_time 10 0) (day0, at_time 11 0) "Luis" "Quimica"]
    = (before ++ v :: rest)%list /\
    day_cell
      [mkcal 1 1 2 (day0, at_time 9 0) (day0, at_time 10 0) "Maria" "Algebra";
       mkcal 3 1 4 (day0, at_time 9 30) (day0, at_time 11 30) "Ana" "Fisica";
       mkcal 4 1 3 (day0, at_time 10 0) (day0, at_time 11 0) "Luis" "Quimica"]
      1 day0 10 = Some v /\
    in_day_cell 1 day0 10 v = true /\
    (forall x, In x before -> in_day_cell 1 day0 10 x = false).
Proof.
  split.
  - apply (day_cell_candidates_overlap
             [mkcal 1 1 2 (day0, at_time 9 0) (day0, at_time 10 0) "Maria" "Algebra";
              mkcal 3 1 4 (day0, at_time 9 30) (day0, at_time 10 30) "Ana" "Fisica"]
             1 day0 9
             (mkcal 1 1 2 (day0, at_time 9 0) (day0, at_time 10 0) "Maria" "Algebra")
             (mkcal 3 1 4 (day0, at_time 9 30) (day0, at_time 10 30) "Ana" "Fisica"));
      simpl; auto.
  - apply (day_cell_candidates_overlap
             [mkcal 1 1 2 (day0, at_time 9 0) (day0, at_time 10 0) "Maria" "Algebra";
              mkcal 3 1 4 (day0, at_time 9 30) (day0, at_time 11 30) "Ana" "Fisica";
              mkcal 4 1 3 (day0, at_time 10 0) (day0, at_time 11 0) "Luis" "Quimica"]
             1 day0 10
             (mkcal 3 1 4 (day0, at_time 9 30) (day0, at_time 11 30) "Ana" "Fisica")
             (mkcal 4 1 3 (day0, at_time 10 0) (day0, at_time 11 0) "Luis" "Quimica"));
      simpl; auto.
Defined.

Lemma week_days_spec currentDate d :
  In d (week_days currentDate)
  <-> currentDate - getDay currentDate <= d < currentDate - getDay currentDate + 7.
Proof.
  unfold week_days. rewrite in_map_iff. split.
  - intros (i & <- & Hi). apply in_seq in Hi. lia.
  - intros H. exists (Z.to_nat (d - (currentDate - getDay currentDate))).
    split; [lia|]. apply in_seq. lia.
Qed.

Lemma getDay_range d : 0 <= getDay d < 7.
Proof. unfold getDay. apply Z.mod_pos_bound. lia. Qed.

(** The week view has seven consecutive days, the first a Sunday, and the
    current day is one of them; a week later the view shows the seven days
    that follow.  A booking whose day is in the week is listed in the cell
    of its room and day and in no other cell of the view. *)
Theorem week_view_covers_the_current_week :
  forall currentDate,
    List.length (week_days currentDate) = 7%nat /\
    (forall i, (i < 7)%nat ->
       nth i (week_days currentDate) 0
       = currentDate - getDay currentDate + Z.of_nat i) /\
    getDay (currentDate - getDay currentDate) = 0 /\
    In currentDate (week_days currentDate) /\
    week_days (currentDate + 7) = map (fun d => d + 7) (week_days currentDate) /\
    (forall bookings v, In v bookings ->
       In (fst (cb_start v)) (week_days currentDate) ->
       forall room day, In day (week_days currentDate) ->
         (In v (week_cell bookings room day)
          <-> room = cb_classroom_id v /\ day = fst (cb_start v))).
Proof.
  intros d. pose proof (getDay_range d) as Hr.
  assert (getDay (d + 7) = getDay d) as Hnext.
  { unfold getDay. replace (d + 7 + 4) with (d + 4 + 1 * 7) by lia.
    apply Z.mod_add. lia. }
  split; [reflexivity|]. split; [|split; [|split; [|split]]].
  - intros i Hi. unfold week_days.
    do 7 (destruct i as [|i]; [simpl; lia|]). lia.
  - unfold getDay in *.
    replace (d - (d + 4) mod 7 + 4) with (d + 4 - (d + 4) mod 7) by lia.
    pose proof (Z.div_mod (d + 4) 7 ltac:(lia)) as E.
    replace (d + 4 - (d + 4) mod 7) with (((d + 4) / 7) * 7) by lia.
    apply Z.mod_mul. lia.
  - apply week_days_spec. lia.
  - unfold week_days. rewrite Hnext, map_map. apply map_ext. intros i. lia.
  - intros bookings v Hv Hweek room day Hday. unfold week_cell.
    rewrite filter_In, andb_true_iff, !Z.eqb_eq. intuition congruence.
Qed.

Lemma week_view_covers_the_current_week_witness :
  (* day0 = 20000 is a Friday; its week starts on day 19995 *)
  In day0 (week_days day0) /\ nth 0 (week_days day0) 0 = 19995.
Proof.
  split.
  - apply (week_view_covers_the_current_week day0).
  - rewrite (proj1 (proj2 (week_view_covers_the_current_week day0)) 0%nat).
    + reflexivity.
    + repeat constructor.
Defined.

Lemma nth_error_map_seq {A} (f : nat -> A) n j :
  (j < n)%nat -> nth_error (map f (seq 0 n)) j = Some (f j).
Proof.
  intros H. rewrite nth_error_map, nth_error_seq.
  destruct (Nat.ltb_spec j n); [reflexivity|lia].
Qed.

(** The month view always has 42 cells: for a first weekday from 0 to 6
    and a month of 28 to 31 days, the cells before the month count up to
    the last day of the month before, day [d] of the month is the cell
    number [firstDayOfWeek + d - 1] and carries its date, and the cells
    after the month count from 1 and carry no date. *)
Theorem month_view_has_42_cells :
  forall year month firstDayOfWeek totalDays daysInPrevMonth,
    0 <= firstDayOfWeek <= 6 -> 28 <= totalDays <= 31 ->
    let cells := calendarDays year month firstDayOfWeek totalDays daysInPrevMonth in
    List.length cells = 42%nat /\
    (forall j, 0 <= j < firstDayOfWeek ->
       nth_error cells (Z.to_nat j)
       = Some (mkcell (daysInPrevMonth - firstDayOfWeek + j + 1) false None)) /\
    (forall d, 1 <= d <= totalDays ->
       nth_error cells (Z.to_nat (firstDayOfWeek + d - 1))
       = Some (mkcell d true (Some (year, month, d)))) /\
    (forall j, firstDayOfWeek + totalDays <= j < 42 ->
       nth_error cells (Z.to_nat j)
       = Some (mkcell (j - firstDayOfWeek - totalDays + 1) false None)).
Proof.
  intros year month first total prev Hf Ht cells.
  unfold cells, calendarDays.
  set (before := map _ (seq 0 (Z.to_nat first))).
  set (current := map _ (seq 0 (Z.to_nat total))).
  assert (List.length before = Z.to_nat first) as Lb
    by (unfold before; now rewrite List.length_map, List.length_seq).
  assert (List.length current = Z.to_nat total) as Lc
    by (unfold current; now rewrite List.length_map, List.length_seq).
  assert (List.length (before ++ current) = Z.to_nat (first + total)) as Lbc
    by (rewrite List.length_app, Lb, Lc; lia).
  rewrite Lbc.
  replace (42 - Z.of_nat (Z.to_nat (first + total))) with (42 - first - total) by lia.
  split; [|split; [|split]].
  - rewrite !List.length_app, Lb, Lc, List.length_map, List.length_seq. lia.
  - intros j Hj. rewrite nth_error_app1 by lia.
    unfold before. rewrite nth_error_map_seq by lia. f_equal. f_equal. lia.
  - intros d Hd. rewrite nth_error_app2 by lia. rewrite nth_error_app1 by lia.
    rewrite Lb. unfold current.
    replace (Z.to_nat (first + d - 1) - Z.to_nat first)%nat with (Z.to_nat (d - 1))
      by lia.
    rewrite nth_error_map_seq by lia.
    replace (Z.of_nat (Z.to_nat (d - 1)) + 1) with d by lia. reflexivity.
  - intros j Hj. rewrite nth_error_app2 by lia. rewrite nth_error_app2 by lia.
    rewrite Lb, Lc.
    replace (Z.to_nat j - Z.to_nat first - Z.to_nat total)%nat
      with (Z.to_nat (j - first - total)) by lia.
    rewrite nth_error_map_seq by lia. f_equal. f_equal. lia.
Qed.

Lemma month_view_has_42_cells_witness :
  (* October 2024 (month 9): 31 days from a Tuesday, after 30 days *)
  List.length (calendarDays 2024 9 2 31 30) = 42%nat /\
  nth_error (calendarDays 2024 9 2 31 30) 1 = Some (mkcell 30 false None) /\
  nth_error (calendarDays 2024 9 2 31 30) 2 = Some (mkcell 1 true (Some (2024, 9, 1))).
Proof.
  destruct (month_view_has_42_cells 2024 9 2 31 30) as (H1 & H2 & H3 & _);
    [lia | lia |].
  split; [exact H1|]. split.
  - apply (H2 1). lia.
  - apply (H3 1). lia.
Defined.

(** ** Tokens and headers *)

Lemma obj_get_set_same o k v : obj_get (obj_set o k v) k = Some v.
Proof.
  induction o as [|[k' v'] o IH]; simpl.
  - now rewrite String.eqb_refl.
  - destruct (String.eqb_spec k' k); simpl.
    + subst. now rewrite String.eqb_refl.
    + destruct (String.eqb_spec k' k); [contradiction|exact IH].
Qed.

Lemma obj_get_set_other o k v k' :
  k' <> k -> obj_get (obj_set o k v) k' = obj_get o k'.
Proof.
  intros H. induction o as [|[k1 v1] o IH]; simpl.
  - destruct (String.eqb_spec k k'); [congruence|reflexivity].
  - destruct (String.eqb_spec k1 k); simpl.
    + subst. destruct (String.eqb_spec k k'); [congruence|reflexivity].
    + destruct (String.eqb_spec k1 k'); [reflexivity|exact IH].
Qed.

Lemma obj_get_none o k : ~ In k (map fst o) -> obj_get o k = None.
Proof.
  induction o as [|[k' v'] o IH]; simpl; intros H; [reflexivity|].
  destruct (String.eqb_spec k' k); [tauto|]. apply IH. tauto.
Qed.

Lemma obj_get_spread extra : forall o k,
  NoDup (map fst extra) ->
  obj_get (obj_spread o extra) k
  = match obj_get extra k with
    | Some v => Some v
    | None => obj_get o k
    end.
Proof.
  unfold obj_spread. induction extra as [|[k1 v1] extra IH]; simpl; intros o k Hnd.
  - reflexivity.
  - inversion Hnd as [|? ? Hk1 Hnd']; subst. rewrite IH by exact Hnd'.
    destruct (String.eqb_spec k1 k) as [->|Hne].
    + rewrite (obj_get_none _ _ Hk1). apply obj_get_set_same.
    + destruct (obj_get extra k); [reflexivity|].
      apply obj_get_set_other. congruence.
Qed.

Lemma truthy_some s : s <> "" -> truthy (Some s) = true.
Proof. intros H. simpl. now destruct (String.eqb_spec s ""). Qed.

(** The class [ApiClient]: after a login that stored a token that is not
    empty the client counts as authenticated and every request carries
    that token as its Authorization header, in place of one the caller may
    have given; after a logout the client does not count as authenticated
    and adds no Authorization header.  Logging out touches no other key of
    the local storage. *)
Theorem token_is_sent_from_login_to_logout :
  (forall st token options_headers, token <> "" ->
     ApiClient.isAuthenticated (ApiClient.login st token) = true /\
     obj_get (ApiClient.headers (ApiClient.login st token) options_headers)
             "Authorization"
     = Some ("Bearer " ++ token)) /\
  (forall st options_headers, NoDup (map fst options_headers) ->
     ApiClient.isAuthenticated (ApiClient.logout st) = false /\
     obj_get (ApiClient.headers (ApiClient.logout st) options_headers)
             "Authorization"
     = obj_get options_headers "Authorization") /\
  (forall st k, k <> ACCESS_TOKEN_KEY ->
     getItem (ApiClient.logout st) k = getItem st k /\
     forall token, getItem (ApiClient.login st token) k = getItem st k).
Proof.
  split; [|split].
  - intros st token oh Ht.
    unfold ApiClient.isAuthenticated, ApiClient.headers, ApiClient.login,
      ApiClient.getToken, ApiClient.setToken, getItem, setItem.
    rewrite String.eqb_refl, (truthy_some _ Ht). split; [reflexivity|].
    apply obj_get_set_same.
  - intros st oh Hnd.
    unfold ApiClient.isAuthenticated, ApiClient.headers, ApiClient.logout,
      ApiClient.getToken, ApiClient.clearToken, getItem, removeItem.
    rewrite String.eqb_refl. split; [reflexivity|].
    rewrite obj_get_spread by exact Hnd.
    now destruct (obj_get oh "Authorization").
  - intros st k Hk.
    unfold ApiClient.logout, ApiClient.login, ApiClient.clearToken,
      ApiClient.setToken, getItem, removeItem, setItem.
    destruct (String.eqb_spec k ACCESS_TOKEN_KEY); [contradiction|]. auto.
Qed.

Lemma token_is_sent_from_login_to_logout_witness :
  obj_get (ApiClient.headers (ApiClient.login (fun _ => None) "abc")
                             [("Authorization", "Bearer other")])
          "Authorization"
  = Some "Bearer abc" /\
  obj_get (ApiClient.headers (ApiClient.logout (fun _ => None))
                             [("Accept", "text/plain")])
          "Authorization"
  = None.
Proof.
  split.
  - apply (proj1 token_is_sent_from_login_to_logout). discriminate.
  - apply (proj1 (proj2 token_is_sent_from_login_to_logout) (fun _ => None)
             [("Accept", "text/plain")]).
    simpl. repeat constructor. intros [].
Defined.

(** The helpers of [client.ts]: an answer without a refresh token replaces
    the access token and leaves the refresh token of an earlier login in
    the storage; [clearTokens] removes both.  An Authorization header
    given by the caller is sent instead of the stored token. *)
Theorem earlier_refresh_token_survives_login :
  (forall st a ty,
     getItem (Client.setTokens st (Client.mktokens a None ty)) ACCESS_TOKEN_KEY
     = Some a /\
     getItem (Client.setTokens st (Client.mktokens a None ty)) REFRESH_TOKEN_KEY
     = getItem st REFRESH_TOKEN_KEY) /\
  (forall st a r ty, r <> "" ->
     getItem (Client.setTokens st (Client.mktokens a (Some r) ty)) ACCESS_TOKEN_KEY
     = Some a /\
     getItem (Client.setTokens st (Client.mktokens a (Some r) ty)) REFRESH_TOKEN_KEY
     = Some r) /\
  (forall st,
     getItem (Client.clearTokens st) ACCESS_TOKEN_KEY = None /\
     getItem (Client.clearTokens st) REFRESH_TOKEN_KEY = None /\
     Client.isAuthenticated (Client.clearTokens st) = false) /\
  (forall st options_headers v, NoDup (map fst options_headers) ->
     obj_get options_headers "Authorization" = Some v ->
     obj_get (Client.headers st options_headers) "Authorization" = Some v).
Proof.
  split; [|split; [|split]].
  - intros st a ty. unfold Client.setTokens, getItem, setItem. simpl. auto.
  - intros st a r ty Hr. unfold Client.setTokens. cbn [Client.refresh_token].
    rewrite (truthy_some _ Hr). unfold getItem, setItem. simpl. auto.
  - intros st. unfold Client.isAuthenticated, Client.getToken, Client.clearTokens,
      getItem, removeItem. simpl. auto.
  - intros st oh v Hnd Hv. unfold Client.headers.
    rewrite obj_get_spread by exact Hnd. now rewrite Hv.
Qed.

Lemma earlier_refresh_token_survives_login_witness :
  getItem (Client.setTokens
             (Client.setTokens (fun _ => None)
                (Client.mktokens "a1" (Some "r1") "bearer"))
             (Client.mktokens "a2" None "bearer"))
          REFRESH_TOKEN_KEY
  = Some "r1" /\
  obj_get (Client.headers (Client.setTokens (fun _ => None)
                             (Client.mktokens "a1" (Some "r1") "bearer"))
                          [("Authorization", "Bearer other")])
          "Authorization"
  = Some "Bearer other".
Proof.
  split.
  - rewrite (proj2 (proj1 earlier_refresh_token_survives_login _ "a2" "bearer")).
    apply (proj1 (proj2 earlier_refresh_token_survives_login)). discriminate.
  - apply (proj2 (proj2 (proj2 earlier_refresh_token_survives_login))).
    + simpl. repeat constructor. intros [].
    + reflexivity.
Defined.

(** ** The password of a new user *)

Lemma trimStart_length s : (List.length (trimStart s) <= List.length s)%nat.
Proof.
  induction s as [|c s IH]; simpl; [lia|].
  destruct (js_whitespace c); simpl; lia.
Qed.

Lemma trimStart_fixed c s :
  trimStart (c :: s) = c :: s -> js_whitespace c = false.
Proof.
  simpl. destruct (js_whitespace c); [|reflexivity].
  intros H. pose proof (trimStart_length s) as L. rewrite H in L. simpl in L. lia.
Qed.

Lemma trimStart_blanks k s : trimStart (repeat 32%N k ++ s)%list = trimStart s.
Proof. induction k as [|k IH]; simpl; auto. Qed.

Lemma rev_repeat {A} (a : A) k : rev (repeat a k) = repeat a k.
Proof.
  induction k as [|k IH]; simpl; [reflexivity|].
  rewrite IH. clear IH. induction k as [|k IH]; simpl; [reflexivity|].
  now rewrite IH.
Qed.

Lemma trim_padded w k :
  w <> [] -> trimStart w = w -> trimStart (rev w) = rev w ->
  trim (w ++ repeat 32%N k)%list = w.
Proof.
  intros Hne Hs He. unfold trim.
  destruct w as [|c w]; [contradiction|].
  pose proof (trimStart_fixed _ _ Hs) as Hc.
  assert (trimStart ((c :: w) ++ repeat 32%N k)%list = ((c :: w) ++ repeat 32%N k)%list) as E
    by (simpl; now rewrite Hc).
  rewrite E, rev_app_distr, rev_repeat, trimStart_blanks, He.
  apply rev_involutive.
Qed.

(** What [addUser] sends has a password and an e-mail address that are not
    empty, and the password is the typed one without the white space around
    it; the minimum of six characters is checked on the text as typed.  So
    a password of any length, followed by blanks up to six characters, is
    sent to be registered as it is without the blanks. *)
Theorem password_minimum_counts_blanks :
  (forall e p n q, addUser e p n = registered q ->
     rr_password q = trim p /\ rr_password q <> [] /\
     rr_email q = trim e /\ rr_email q <> [] /\
     rr_username q = before_at e /\
     (6 <= List.length p)%nat) /\
  (forall e w k n,
     trim e <> [] ->
     w <> [] -> trimStart w = w -> trimStart (rev w) = rev w ->
     (6 <= List.length w + k)%nat ->
     exists q, addUser e (w ++ repeat 32%N k)%list n = registered q /\
               rr_password q = w).
Proof.
  split.
  - intros e p n q. unfold addUser.
    destruct (trim e) as [|ce te] eqn:Ee; [discriminate|].
    destruct (trim p) as [|cp tp] eqn:Ep; [discriminate|]. simpl.
    destruct (Nat.ltb_spec (List.length p) 6); [discriminate|].
    intros [= <-]. simpl. repeat split; auto; discriminate.
  - intros e w k n He Hw Hs Hr Hlen. unfold addUser.
    rewrite (trim_padded w k Hw Hs Hr).
    destruct (trim e) as [|ce te]; [contradiction|].
    destruct w as [|c w]; [contradiction|]. cbn [is_empty orb].
    destruct (Nat.ltb_spec (List.length ((c :: w) ++ repeat 32%N k)%list) 6) as [L|L].
    + rewrite List.length_app, repeat_length in L. lia.
    + eexists. split; reflexivity.
Qed.

Lemma password_minimum_counts_blanks_witness :
  (* the password "a" followed by five blanks, for x@y *)
  exists q, addUser [120; 64; 121]%N ([97]%N ++ repeat 32%N 5)%list [] = registered q /\
            rr_password q = [97]%N.
Proof.
  apply (proj2 password_minimum_counts_blanks [120; 64; 121]%N [97]%N 5%nat []).
  - discriminate.
  - discriminate.
  - reflexivity.
  - reflexivity.
  - simpl. lia.
Defined.

(** ** The keys of [classrooms] *)





